(** * remindme: parsers, backends and command construction

    A shallow embedding of [remindme/parsers.py], [remindme/utils.py] and
    [remindme/backends.py], with the properties the specification states
    about them.

    Conventions.
    - A Python [str] is a list of code points.  The model keeps the code
      points U+0000..U+00FF (one [ascii] each); the [str] methods the
      program calls are tabulated exactly on that range.
    - A function that can raise returns a [result]: [Ok v] or [Raise e].
      [die] raises [SystemExit] with the message prefixed by ["error: "].
    - An f-string is kept as its list of fragments, so that [{text!r}]
      stays a reference to [text] instead of a rendering of [repr]. *)

From Stdlib Require Import ZArith NArith Ascii String Bool Lia List.
Import ListNotations.

Open Scope string_scope.
Open Scope list_scope.

(** ** Python strings *)

Definition str := list ascii.

Definition lit (s : string) : str := list_ascii_of_string s.
Coercion lit : string >-> str.

Definition ord (c : ascii) : N := N_of_ascii c.

Definition between (lo hi : N) (c : ascii) : bool :=
  ((lo <=? ord c) && (ord c <=? hi))%N.

(** [str.isspace] of one code point: TAB..CR, FS..US, SPACE, NEL, NBSP. *)
Definition isspace (c : ascii) : bool :=
  between 9 13 c || between 28 32 c || (ord c =? 133)%N || (ord c =? 160)%N.

(** [str.isdigit] of one code point: the decimal digits and the
    superscripts two, three and one (U+00B2, U+00B3, U+00B9). *)
Definition isdigit_char (c : ascii) : bool :=
  between 48 57 c || (ord c =? 178)%N || (ord c =? 179)%N || (ord c =? 185)%N.

(** [str.isdecimal] of one code point: what [int] accepts as a digit. *)
Definition isdecimal_char (c : ascii) : bool := between 48 57 c.

(** [str.lower] of one code point: A..Z and the Latin-1 capitals
    U+00C0..U+00DE (the multiplication sign U+00D7 is not a letter). *)
Definition lower_char (c : ascii) : ascii :=
  if between 65 90 c || (between 192 222 c && negb (ord c =? 215)%N)
  then ascii_of_N (ord c + 32)
  else c.

Definition lower (s : str) : str := map lower_char s.

Fixpoint lstrip (s : str) : str :=
  match s with
  | c :: s' => if isspace c then lstrip s' else s
  | [] => []
  end.

Definition rstrip (s : str) : str := rev (lstrip (rev s)).

Definition strip (s : str) : str := rstrip (lstrip s).

(** [s.isdigit()]: every code point is a digit and there is at least one. *)
Definition isdigit (s : str) : bool :=
  match s with
  | [] => false
  | _ => forallb isdigit_char s
  end.

Definition isdecimal (s : str) : bool :=
  match s with
  | [] => false
  | _ => forallb isdecimal_char s
  end.

(** [needle in s] for strings. *)
Fixpoint startswith (p s : str) : bool :=
  match p, s with
  | [], _ => true
  | a :: p', b :: s' => Ascii.eqb a b && startswith p' s'
  | _ :: _, [] => false
  end.

Fixpoint contains (needle s : str) : bool :=
  startswith needle s ||
  match s with
  | [] => false
  | _ :: s' => contains needle s'
  end.

(** [s.split()]: the maximal runs of non-space code points. *)
Fixpoint split_from (cur : str) (s : str) : list str :=
  match s with
  | [] => match cur with [] => [] | _ => [rev cur] end
  | c :: s' =>
      if isspace c
      then match cur with
           | [] => split_from [] s'
           | _ => rev cur :: split_from [] s'
           end
      else split_from (c :: cur) s'
  end.

Definition split (s : str) : list str := split_from [] s.

(** ** Integers and their decimal text *)

Definition digit_value (c : ascii) : Z := (Z.of_N (ord c) - 48)%Z.

Definition digit_char (d : Z) : ascii := ascii_of_N (Z.to_N (d + 48)).

(** The value of a string of decimal digits, most significant first. *)
Definition decimal_value (s : str) : Z :=
  fold_left (fun acc c => (10 * acc + digit_value c)%Z) s 0%Z.

(** [sys.get_int_max_str_digits()], at its default. *)
Definition MAX_STR_DIGITS : Z := 4300.

(** [int(s)] for an [s] that passed [s.isdigit()]: the conversion accepts
    decimal digits only, and raises [ValueError] ([None]) on the
    superscript digits that [isdigit] lets through, and on a string of
    more digits than the interpreter converts (leading zeros count). *)
Definition int_of_digits (s : str) : option Z :=
  if isdecimal s
  then if (MAX_STR_DIGITS <? Z.of_nat (length s))%Z then None
       else Some (decimal_value s)
  else None.

(** [str(n)] for [0 <= n]: [fuel] bounds the number of digits. *)
Fixpoint str_of_fuel (fuel : nat) (n : Z) : str :=
  match fuel with
  | O => []
  | S f =>
      if (n <? 10)%Z then [digit_char n]
      else str_of_fuel f (n / 10)%Z ++ [digit_char (n mod 10)%Z]
  end.

Definition str_of_Z (n : Z) : str :=
  str_of_fuel (S (Z.to_nat (Z.log2 n))) n.

(** [s.zfill(width)] on an unsigned numeral, which is what the format
    specifications [{n:0wd}] and the strftime directives produce. *)
Definition zfill (width : nat) (s : str) : str :=
  repeat "0"%char (width - length s) ++ s.

Definition format_0d (width : nat) (n : Z) : str := zfill width (str_of_Z n).

(** ** Exceptions and results *)

Inductive fragment : Type :=
| Lit (s : str)      (* literal text, or the [str()] of a value *)
| Repr (s : str).    (* [{s!r}] *)

Definition message := list fragment.

Inductive exn : Type :=
| SystemExit (msg : message)
| ValueError
| OverflowError
| IndexError
| TypeError.

Inductive result (A : Type) : Type :=
| Ok (a : A)
| Raise (e : exn).

Arguments Ok {A} a.
Arguments Raise {A} e.

Definition bind {A B : Type} (r : result A) (k : A -> result B) : result B :=
  match r with
  | Ok a => k a
  | Raise e => Raise e
  end.

Notation "x <- r ;; k" := (bind r (fun x => k))
  (at level 61, r at next level, right associativity).

(** [utils.die]. *)
Definition die {A : Type} (msg : message) : result A :=
  Raise (SystemExit (Lit "error: " :: msg)).

(** ** [datetime.timedelta] *)

Record timedelta : Type := mk_timedelta {
  days : Z;
  seconds : Z;
  microseconds : Z
}.

Definition MAX_DELTA_DAYS : Z := 999999999.

(** [timedelta(days=d, seconds=s, minutes=m, hours=h)] on integers: the
    constructor normalises to [0 <= seconds < 86400] and raises
    [OverflowError] when the day count leaves [-999999999, 999999999]. *)
Definition timedelta_new (d s m h : Z) : result timedelta :=
  let total := (d * 86400 + h * 3600 + m * 60 + s)%Z in
  let nd := (total / 86400)%Z in
  if (Z.abs nd >? MAX_DELTA_DAYS)%Z then Raise OverflowError
  else Ok (mk_timedelta nd (total mod 86400) 0).

Definition timedelta_cmp (a b : timedelta) : comparison :=
  match (days a ?= days b)%Z with
  | Eq => match (seconds a ?= seconds b)%Z with
          | Eq => (microseconds a ?= microseconds b)%Z
          | c => c
          end
  | c => c
  end.

Definition timedelta_gt (a b : timedelta) : bool :=
  match timedelta_cmp a b with Gt => true | _ => false end.

Definition total_microseconds (d : timedelta) : Z :=
  ((days d * 86400 + seconds d) * 1000000 + microseconds d)%Z.

(** [floor(log2(a / b))] for positive [a] and [b]: the binary exponent
    of the quotient. *)
Definition binary_exponent (a b : Z) : Z :=
  if (b <=? a)%Z then Z.log2 (a / b)
  else (- Z.log2_up ((b + a - 1) / a))%Z.

(** [num / den] rounded to the nearest integer, ties to even. *)
Definition round_half_even (num den : Z) : Z :=
  let q := (num / den)%Z in
  let r := (num mod den)%Z in
  if (2 * r <? den)%Z then q
  else if (den <? 2 * r)%Z then (q + 1)%Z
  else if Z.even q then q else (q + 1)%Z.

(** [int(a / b)] for integers [0 <= a] and [0 < b]: the true division
    gives the float nearest to the quotient (53 significant bits, ties
    to even) and [int] drops its fractional part.  Quotients here lie
    far inside the range of normal floats. *)
Definition int_of_true_division (a b : Z) : Z :=
  if (a =? 0)%Z then 0%Z
  else
    let s := (52 - binary_exponent a b)%Z in
    if (0 <=? s)%Z
    then (round_half_even (a * 2 ^ s) b / 2 ^ s)%Z
    else (round_half_even a (b * 2 ^ (- s)) * 2 ^ (- s))%Z.

(** [int(delta.total_seconds())]: [total_seconds] is the microsecond
    count divided by 10^6 as a float, and [int] truncates towards zero. *)
Definition whole_seconds (d : timedelta) : Z :=
  let us := total_microseconds d in
  if (us <? 0)%Z then (- int_of_true_division (- us) 1000000)%Z
  else int_of_true_division us 1000000.

(** ** [parsers.parse_duration] *)

Definition is_unit (c : ascii) : bool :=
  existsb (Ascii.eqb c) ["s"; "m"; "h"; "d"]%char.

Definition msg_empty_duration : message := [Lit "empty duration"].

Definition msg_expected (text : str) : message :=
  [Lit "invalid duration "; Repr text; Lit ": expected like 30m, 2h, 45s, 1d"].

Definition msg_must_be_positive (text : str) : message :=
  [Lit "invalid duration "; Repr text; Lit ": must be > 0"].

Definition msg_invalid_unit (unit : ascii) : message :=
  [Lit "invalid duration unit: "; Lit [unit]].

Definition msg_maximum (text : str) : message :=
  [Lit "invalid duration "; Repr text; Lit ": maximum is 365 days"].

Definition parse_duration (text : str) : result timedelta :=
  let text := lower (strip text) in
  match text with
  | [] => die msg_empty_duration
  | _ =>
      let n_str := removelast text in
      let unit := last text "000"%char in
      if negb (is_unit unit) || negb (isdigit n_str)
      then die (msg_expected text)
      else
        match int_of_digits n_str with
        | None => Raise ValueError
        | Some n =>
            if (n <=? 0)%Z then die (msg_must_be_positive text)
            else
              delta <-
                (if Ascii.eqb unit "s" then timedelta_new 0 n 0 0
                 else if Ascii.eqb unit "m" then timedelta_new 0 0 n 0
                 else if Ascii.eqb unit "h" then timedelta_new 0 0 0 n
                 else if Ascii.eqb unit "d" then timedelta_new n 0 0 0
                 else die (msg_invalid_unit unit)) ;;
              max_duration <- timedelta_new 365 0 0 0 ;;
              if timedelta_gt delta max_duration
              then die (msg_maximum text)
              else Ok delta
        end
  end.

(** ** [parsers.format_systemd_duration] *)

Definition msg_non_positive : message := [Lit "duration must be > 0 seconds"].

Definition format_systemd_duration (delta : timedelta) : result str :=
  let seconds := whole_seconds delta in
  if (seconds <=? 0)%Z then die msg_non_positive
  else
    let day := (24 * 3600)%Z in
    let hour := 3600%Z in
    let minute := 60%Z in
    if (seconds mod day =? 0)%Z then Ok (str_of_Z (seconds / day) ++ lit "d")
    else if (seconds mod hour =? 0)%Z then Ok (str_of_Z (seconds / hour) ++ lit "h")
    else if (seconds mod minute =? 0)%Z then Ok (str_of_Z (seconds / minute) ++ lit "m")
    else Ok (str_of_Z seconds ++ lit "s").

(** ** Vocabulary for the statements about durations *)

(** Seconds per unit letter. *)
Definition unit_seconds (u : ascii) : Z :=
  if Ascii.eqb u "s" then 1
  else if Ascii.eqb u "m" then 60
  else if Ascii.eqb u "h" then 3600
  else if Ascii.eqb u "d" then 86400
  else 0.

(** The timedelta of a whole number [t] of seconds. *)
Definition span_delta (t : Z) : timedelta :=
  mk_timedelta (t / 86400) (t mod 86400) 0.

Definition max_span : Z := 365 * 86400.

(** What [parse_duration] does on a trimmed, lowercased text [t]: one
    constructor per exit of the function. *)
Inductive duration_outcome (t : str) : result timedelta -> Prop :=
| DurEmpty :
    t = [] ->
    duration_outcome t (die msg_empty_duration)
| DurShape (ds : str) (u : ascii) :
    t = ds ++ [u] ->
    is_unit u = false \/ isdigit ds = false ->
    duration_outcome t (die (msg_expected t))
| DurNotDecimal (ds : str) (u : ascii) :
    t = ds ++ [u] ->
    is_unit u = true -> isdigit ds = true -> isdecimal ds = false ->
    duration_outcome t (Raise ValueError)
| DurTooManyDigits (ds : str) (u : ascii) :
    t = ds ++ [u] ->
    is_unit u = true -> isdecimal ds = true ->
    (MAX_STR_DIGITS < Z.of_nat (length ds))%Z ->
    duration_outcome t (Raise ValueError)
| DurZero (ds : str) (u : ascii) :
    t = ds ++ [u] ->
    is_unit u = true -> isdecimal ds = true ->
    (Z.of_nat (length ds) <= MAX_STR_DIGITS)%Z ->
    decimal_value ds = 0%Z ->
    duration_outcome t (die (msg_must_be_positive t))
| DurOverflow (ds : str) (u : ascii) :
    t = ds ++ [u] ->
    is_unit u = true -> isdecimal ds = true ->
    (Z.of_nat (length ds) <= MAX_STR_DIGITS)%Z ->
    (MAX_DELTA_DAYS < decimal_value ds * unit_seconds u / 86400)%Z ->
    duration_outcome t (Raise OverflowError)
| DurTooLarge (ds : str) (u : ascii) :
    t = ds ++ [u] ->
    is_unit u = true -> isdecimal ds = true ->
    (Z.of_nat (length ds) <= MAX_STR_DIGITS)%Z ->
    (max_span < decimal_value ds * unit_seconds u)%Z ->
    (decimal_value ds * unit_seconds u / 86400 <= MAX_DELTA_DAYS)%Z ->
    duration_outcome t (die (msg_maximum t))
| DurOk (ds : str) (u : ascii) :
    t = ds ++ [u] ->
    is_unit u = true -> isdecimal ds = true ->
    (Z.of_nat (length ds) <= MAX_STR_DIGITS)%Z ->
    (0 < decimal_value ds)%Z ->
    (decimal_value ds * unit_seconds u <= max_span)%Z ->
    duration_outcome t (Ok (span_delta (decimal_value ds * unit_seconds u))).

(** The units tried by the formatter, largest first. *)
Definition systemd_units : list (Z * ascii) :=
  [(86400, "d"); (3600, "h"); (60, "m"); (1, "s")]%Z%char.

(** ** [datetime.datetime]

    Naive datetimes (no tzinfo), which is what [datetime.now()] returns
    and what the specification calls an instant. *)

Record datetime : Type := mk_datetime {
  year : Z;
  month : Z;
  day : Z;
  hour : Z;
  minute : Z;
  second : Z;
  microsecond : Z
}.

Definition MAXYEAR : Z := 9999.

Definition is_leap (y : Z) : bool :=
  ((y mod 4 =? 0) && (negb (y mod 100 =? 0) || (y mod 400 =? 0)))%Z.

Definition days_in_month (y m : Z) : Z :=
  if (m =? 2)%Z then (if is_leap y then 29 else 28)%Z
  else if ((m =? 4) || (m =? 6) || (m =? 9) || (m =? 11))%Z then 30%Z
  else 31%Z.

(** The invariant every [datetime] object satisfies. *)
Definition valid_datetime (d : datetime) : Prop :=
  (1 <= year d <= MAXYEAR)%Z /\
  (1 <= month d <= 12)%Z /\
  (1 <= day d <= days_in_month (year d) (month d))%Z /\
  (0 <= hour d < 24)%Z /\
  (0 <= minute d < 60)%Z /\
  (0 <= second d < 60)%Z /\
  (0 <= microsecond d < 1000000)%Z.

(** [dt.replace(hour=h, minute=mi, second=s, microsecond=us)]. *)
Definition replace_time (d : datetime) (h mi s us : Z) : datetime :=
  mk_datetime (year d) (month d) (day d) h mi s us.

(** [dt.replace(microsecond=us)]. *)
Definition replace_microsecond (d : datetime) (us : Z) : datetime :=
  mk_datetime (year d) (month d) (day d) (hour d) (minute d) (second d) us.

(** Comparison of naive datetimes: the seven fields in order. *)
Fixpoint lex_compare (a b : list Z) : comparison :=
  match a, b with
  | x :: a', y :: b' =>
      match (x ?= y)%Z with
      | Eq => lex_compare a' b'
      | c => c
      end
  | [], [] => Eq
  | [], _ :: _ => Lt
  | _ :: _, [] => Gt
  end.

Definition datetime_fields (d : datetime) : list Z :=
  [year d; month d; day d; hour d; minute d; second d; microsecond d].

Definition datetime_cmp (a b : datetime) : comparison :=
  lex_compare (datetime_fields a) (datetime_fields b).

(** [a <= b]. *)
Definition datetime_le (a b : datetime) : bool :=
  match datetime_cmp a b with Gt => false | _ => true end.

(** [a < b]. *)
Definition datetime_lt (a b : datetime) : bool :=
  match datetime_cmp a b with Lt => true | _ => false end.

(** The next calendar day, same time of day; [OverflowError] after the
    last day of year 9999. *)
Definition next_day (d : datetime) : result datetime :=
  if (day d <? days_in_month (year d) (month d))%Z
  then Ok (mk_datetime (year d) (month d) (day d + 1)
             (hour d) (minute d) (second d) (microsecond d))
  else if (month d <? 12)%Z
  then Ok (mk_datetime (year d) (month d + 1) 1
             (hour d) (minute d) (second d) (microsecond d))
  else if (year d <? MAXYEAR)%Z
  then Ok (mk_datetime (year d + 1) 1 1
             (hour d) (minute d) (second d) (microsecond d))
  else Raise OverflowError.

(** [d.date() == date.max]: the last day a datetime can hold. *)
Definition is_last_date (d : datetime) : bool :=
  ((year d =? MAXYEAR) && (month d =? 12) && (day d =? 31))%Z.

Fixpoint add_days (n : nat) (d : datetime) : result datetime :=
  match n with
  | O => Ok d
  | S k => d' <- next_day d ;; add_days k d'
  end.

(** [dt + delta] for a [delta] of a whole, non-negative number of days
    (the parser adds [timedelta(days=1)]): the date advances by that many
    calendar days and the time of day is kept. *)
Definition datetime_add_days (d : datetime) (delta : timedelta) : result datetime :=
  add_days (Z.to_nat (days delta)) d.

(** [dt.isoformat(sep=' ', timespec='minutes')]. *)
Definition isoformat_minutes (d : datetime) : str :=
  format_0d 4 (year d) ++ lit "-" ++ format_0d 2 (month d) ++ lit "-" ++
  format_0d 2 (day d) ++ lit " " ++
  format_0d 2 (hour d) ++ lit ":" ++ format_0d 2 (minute d).

(** The directive [%Y] of [strftime]: the year as a decimal number.  The
    C library does not fill it with zeros, so a year before 1000 has
    fewer than four digits. *)
Definition strftime_Y (y : Z) : str := str_of_Z y.

(** [dt.strftime("%Y%m%d-%H%M%S")]. *)
Definition strftime_stamp (d : datetime) : str :=
  strftime_Y (year d) ++ format_0d 2 (month d) ++ format_0d 2 (day d) ++
  lit "-" ++
  format_0d 2 (hour d) ++ format_0d 2 (minute d) ++ format_0d 2 (second d).

(** ** [utils.unit_name] *)

Definition unit_name (prefix : str) (when : datetime) : str :=
  let stamp := strftime_stamp when in
  prefix ++ lit "-" ++ stamp ++ lit "-" ++ format_0d 6 (microsecond when).

(** ** [parsers.parse_when] *)

Definition msg_empty_time : message := [Lit "empty time"].

Definition msg_could_not_parse (raw e : str) : message :=
  [Lit "could not parse time "; Repr raw; Lit ": "; Lit e].

Definition msg_not_future (dt : datetime) : message :=
  [Lit "requested time is not in the future: "; Lit (isoformat_minutes dt)].

(** [l[0]]. *)
Definition first_item {A : Type} (l : list A) : result A :=
  match l with
  | x :: _ => Ok x
  | [] => Raise IndexError
  end.

(** The heuristic of [parse_when], as written:
    [not any(ch.isdigit() for ch in raw.split()[0] if ch in "-/") and
     (":" in raw or "am" in raw.lower() or "pm" in raw.lower()
      or raw.strip().isdigit())]. *)
Definition looks_time_only (raw : str) : result bool :=
  tok <- first_item (split raw) ;;
  Ok (negb (existsb isdigit_char
              (filter (fun ch => contains [ch] (lit "-/")) tok))
      && (contains (lit ":") raw
          || contains (lit "am") (lower raw)
          || contains (lit "pm") (lower raw)
          || isdigit (strip raw))).

(** What the free-form parser returns: a datetime that is naive, or
    aware (it carries a tzinfo, here its offset from UTC in seconds)
    when the text names a time zone. *)
Inductive parsed : Type :=
| Naive (d : datetime)
| Aware (d : datetime) (utcoffset : Z).

(** The fields of a parsed datetime, whatever its tzinfo. *)
Definition wall_clock (p : parsed) : datetime :=
  match p with
  | Naive d => d
  | Aware d _ => d
  end.

Section ParseWhen.

(** [dateutil.parser.parse(raw, default=d)]: the parsed datetime, or the
    text of the exception it raised.  The library is not part of the
    repository; the parser is a parameter. *)
Variable dtparse : str -> datetime -> parsed + str.

(** [datetime.now()]. *)
Variable now : datetime.

Definition parse_when (text : str) : result datetime :=
  let raw := strip text in
  match raw with
  | [] => die msg_empty_time
  | _ =>
      match dtparse raw (replace_microsecond now 0) with
      | inr e => die (msg_could_not_parse raw e)
      | inl p =>
          (* [dt.replace(microsecond=0)] keeps the tzinfo of [dt] *)
          let dt := replace_microsecond (wall_clock p) 0 in
          time_only <- looks_time_only raw ;;
          if time_only : bool then
            let candidate :=
              replace_time now (hour dt) (minute dt) (second dt) 0 in
            if datetime_le candidate now
            then delta <- timedelta_new 1 0 0 0 ;;
                 datetime_add_days candidate delta
            else Ok candidate
          else
            match p with
            | Aware _ _ =>
                (* [dt <= now] between an aware and a naive datetime *)
                Raise TypeError
            | Naive _ =>
                if datetime_le dt now
                then die (msg_not_future dt)
                else Ok dt
            end
      end
  end.

End ParseWhen.

(** The classification as the specification words it: the first
    whitespace-delimited token has no digit adjacent to [-] or [/], and
    the text has a colon, or am/pm in any case, or is all digits. *)
Definition is_date_separator (c : ascii) : bool :=
  Ascii.eqb c "-" || Ascii.eqb c "/".

Fixpoint digit_next_to_separator (tok : str) : bool :=
  match tok with
  | a :: (b :: _) as rest =>
      (isdigit_char a && is_date_separator b)
      || (is_date_separator a && isdigit_char b)
      || digit_next_to_separator rest
  | _ => false
  end.

Definition spec_time_only (raw : str) : bool :=
  negb (digit_next_to_separator (hd [] (split raw)))
  && (contains (lit ":") raw
      || contains (lit "am") (lower raw)
      || contains (lit "pm") (lower raw)
      || isdigit (strip raw)).

(** A stand-in for the free-form parser on the inputs of the examples:
    it fails on "asdfasdf", reads "2020-01-01" as that date at the default's
    time of day, reads "20200116T150000Z" as that instant in UTC (an
    aware datetime), and reads any other text as 15:00 on the default's
    date. *)
Definition example_parser (raw : str) (default : datetime) : parsed + str :=
  if list_eq_dec ascii_dec raw (lit "asdfasdf")
  then inr (lit "Unknown string format: asdfasdf")
  else if list_eq_dec ascii_dec raw (lit "2020-01-01")
  then inl (Naive (mk_datetime 2020 1 1 (hour default) (minute default)
                     (second default) (microsecond default)))
  else if list_eq_dec ascii_dec raw (lit "20200116T150000Z")
  then inl (Aware (mk_datetime 2020 1 16 15 0 0 0) 0)
  else inl (Naive (replace_time default 15 0 (second default)
                     (microsecond default))).

(** A field printed on exactly [width] decimal digits. *)
Definition digits_of_width (width : nat) (n : Z) (s : str) : Prop :=
  length s = width /\ forallb isdecimal_char s = true /\ decimal_value s = n.

(** ** [backends]: the registry and the auto-select backend *)

Definition str_eqb (a b : str) : bool :=
  if list_eq_dec ascii_dec a b then true else false.

(** [sep.join(items)]. *)
Fixpoint join (sep : str) (items : list str) : str :=
  match items with
  | [] => []
  | [x] => x
  | x :: rest => x ++ sep ++ join sep rest
  end.

Inductive backend_cls : Type :=
| AutoBackend
| SystemdBackend
| AtBackend.

(** The dict [BACKENDS], in insertion order. *)
Definition BACKENDS : list (str * backend_cls) :=
  [(lit "auto", AutoBackend);
   (lit "systemd", SystemdBackend);
   (lit "at", AtBackend)].

(** A call of the [Backend] interface. *)
Inductive call : Type :=
| ScheduleIn (duration : timedelta) (title message : str)
| ScheduleAt (when : datetime) (title message : str).

(** What an operation does to the outside: look an executable up in the
    search path, or hand a call to a concrete backend. *)
Inductive event : Type :=
| Which (cmd : str)
| Forward (to : backend_cls) (c : call).

Definition trace := list event.

Section Backends.

(** [shutil.which(cmd) is not None], at the time of the call. *)
Variable which : str -> bool.

(** [SystemdBackend.is_available] and [AtBackend.is_available].  The
    scans below skip the entry named "auto", the only one that holds
    [AutoBackend], so its case is never asked for. *)
Definition concrete_is_available (cls : backend_cls) : bool * trace :=
  match cls with
  | SystemdBackend => (which (lit "systemd-run"), [Which (lit "systemd-run")])
  | AtBackend => (which (lit "at"), [Which (lit "at")])
  | AutoBackend => (false, [])
  end.

(** [any(cls.is_available() for name, cls in registry if name != "auto")]:
    stops at the first available backend. *)
Fixpoint any_available (registry : list (str * backend_cls)) : bool * trace :=
  match registry with
  | [] => (false, [])
  | (name, cls) :: rest =>
      if str_eqb name (lit "auto") then any_available rest
      else
        let (a, tr) := concrete_is_available cls in
        if a then (true, tr)
        else let (b, tr') := any_available rest in (b, tr ++ tr')
  end.

(** The loop of [AutoBackend._select_delegate]. *)
Fixpoint first_available (registry : list (str * backend_cls))
  : option backend_cls * trace :=
  match registry with
  | [] => (None, [])
  | (name, cls) :: rest =>
      if str_eqb name (lit "auto") then first_available rest
      else
        let (a, tr) := concrete_is_available cls in
        if a then (Some cls, tr)
        else let (r, tr') := first_available rest in (r, tr ++ tr')
  end.

Definition msg_no_backend : message :=
  [Lit "no usable backend found: need one of ";
   Lit (join (lit ", ")
          (filter (fun k => negb (str_eqb k (lit "auto"))) (map fst BACKENDS)))].

Definition _select_delegate : result backend_cls * trace :=
  match first_available BACKENDS with
  | (Some cls, tr) => (Ok cls, tr)
  | (None, tr) => (die msg_no_backend, tr)
  end.

(** An [AutoBackend] instance: its [_delegate] attribute.  The concrete
    backends have no attributes, an instance is its class. *)
Record auto_backend : Type := mk_auto { _delegate : option backend_cls }.

(** [AutoBackend()]. *)
Definition auto_new : auto_backend := mk_auto None.

(** What a use of the instance leaves behind: the instance afterwards,
    the value returned or the exception raised, and the events. *)
Record outcome (A : Type) : Type := mk_outcome {
  after : auto_backend;
  returned : result A;
  events : trace
}.

Arguments mk_outcome {A} _ _ _.
Arguments after {A} _.
Arguments returned {A} _.
Arguments events {A} _.

(** The property [AutoBackend.delegate]. *)
Definition delegate (self : auto_backend) : outcome backend_cls :=
  match _delegate self with
  | None =>
      match _select_delegate with
      | (Ok cls, tr) => mk_outcome (mk_auto (Some cls)) (Ok cls) tr
      | (Raise e, tr) => mk_outcome self (Raise e) tr
      end
  | Some cls => mk_outcome self (Ok cls) []
  end.

(** [AutoBackend.schedule_in] and [AutoBackend.schedule_at]. *)
Definition auto_schedule (self : auto_backend) (c : call) : outcome unit :=
  let d := delegate self in
  match returned d with
  | Ok cls => mk_outcome (after d) (Ok tt) (events d ++ [Forward cls c])
  | Raise e => mk_outcome (after d) (Raise e) (events d)
  end.

(** [AutoBackend.is_available], a static method: it has no instance to
    read or to update. *)
Definition auto_is_available : bool * trace := any_available BACKENDS.

(** One use of an instance through its public operations. *)
Inductive auto_use : Type :=
| UseSchedule (c : call)
| UseIsAvailable.

Definition auto_step (self : auto_backend) (u : auto_use) : outcome (option bool) :=
  match u with
  | UseSchedule c =>
      let o := auto_schedule self c in
      mk_outcome (after o)
        (match returned o with Ok _ => Ok None | Raise e => Raise e end)
        (events o)
  | UseIsAvailable =>
      let (b, tr) := auto_is_available in
      mk_outcome self (Ok (Some b)) tr
  end.

End Backends.

Arguments mk_outcome {A} _ _ _.
Arguments after {A} _.
Arguments returned {A} _.
Arguments events {A} _.

(** A run of the process: scheduling calls on one instance, each with the
    search path as it is at that moment; an exception ends the run. *)
Fixpoint auto_run (self : auto_backend)
    (steps : list ((str -> bool) * call)) : auto_backend * trace :=
  match steps with
  | [] => (self, [])
  | (which, c) :: rest =>
      let o := auto_schedule which self c in
      match returned o with
      | Ok _ => let (self', tr) := auto_run (after o) rest in
                (self', events o ++ tr)
      | Raise _ => (after o, events o)
      end
  end.

(** ** [shlex.quote] and the shell line of the at backend

    The line is encoded as UTF-8 before it reaches the shell.  A code
    point above U+007F is unsafe for [shlex.quote] and encodes to bytes
    above 127, none of which is special to the shell or equal to a
    quote; so in this part a character may be read as a byte of the
    encoded line, and the strings cover every encodable title and
    message. *)

Definition dquote : ascii := ascii_of_N 34.
Definition newline : ascii := ascii_of_N 10.
Definition tab : ascii := ascii_of_N 9.

(** The complement of [[^\w@%+=:,./-]] with [re.ASCII]. *)
Definition is_safe_char (c : ascii) : bool :=
  between 97 122 c || between 65 90 c || between 48 57 c
  || existsb (Ascii.eqb c) ["_"; "@"; "%"; "+"; "="; ":"; ","; "."; "/"; "-"]%char.

(** [s.replace(old, new)] for a one-character [old]. *)
Definition replace_char (old : ascii) (new : str) (s : str) : str :=
  flat_map (fun c => if Ascii.eqb c old then new else [c]) s.

(** [shlex.quote]: the empty string becomes two single quotes, a string
    of safe characters is returned as it is, any other string is put in
    single quotes with each single quote written as '"'"'. *)
Definition shlex_quote (s : str) : str :=
  match s with
  | [] => lit "''"
  | _ =>
      if forallb is_safe_char s then s
      else lit "'"
           ++ replace_char "'" ["'"; dquote; "'"; dquote; "'"]%char s
           ++ lit "'"
  end.

Definition _build_notify_shell_command (title message : str) : str :=
  join (lit " ") [lit "notify-send"; shlex_quote title; shlex_quote message].

(** The standard input [AtBackend.schedule_at] gives to [at -t ts]:
    [shell_cmd + "\n"]. *)
Definition at_input (title message : str) : str :=
  _build_notify_shell_command title message ++ [newline].

(** ** A POSIX shell reading a script

    Modelled from POSIX.1-2017, Shell Command Language, sections 2.2
    (Quoting), 2.3 (Token Recognition) and 2.6 (Word Expansions): the
    shell that runs the job is not part of the repository.  The model
    reads the script one character at a time and splits it into simple
    commands, each a list of words taken literally.  Whatever the shell
    would do beyond running such commands -- parameter expansion,
    command substitution, redirection, grouping, pathname or tilde
    expansion -- ends the reading and is reported as such. *)

Inductive quoting : Type :=
| Unquoted
| Escaped          (* after an unquoted backslash *)
| SingleQuoted
| DoubleQuoted
| DoubleEscaped    (* after a backslash inside double quotes *)
| Commented.       (* after an unquoted # that starts a word *)

Inductive activity : Type :=
| Expansion        (* $ or a backquote, unquoted or in double quotes *)
| Redirection      (* < or > *)
| Grouping         (* ( or ) *)
| Globbing         (* an unquoted star, question mark or bracket *)
| TildePrefix.     (* ~ at the start of a word *)

Inductive sh_state : Type :=
| Lexing (q : quoting) (word : option str) (argv : list str)
         (done : list (list str))
| Acting (a : activity).

Definition word_of (w : option str) : str :=
  match w with
  | Some s => s
  | None => []
  end.

Definition push (w : option str) (c : ascii) : option str :=
  Some (word_of w ++ [c]).

Definition end_word (w : option str) (argv : list str) : list str :=
  match w with
  | Some s => argv ++ [s]
  | None => argv
  end.

Definition end_command (w : option str) (argv : list str)
    (done : list (list str)) : list (list str) :=
  match end_word w argv with
  | [] => done
  | cmd => done ++ [cmd]
  end.

Definition one_of (c : ascii) (set : list ascii) : bool :=
  existsb (Ascii.eqb c) set.

Definition sh_step (st : sh_state) (c : ascii) : sh_state :=
  match st with
  | Acting a => Acting a
  | Lexing q w argv done =>
      match q with
      | SingleQuoted =>
          if Ascii.eqb c "'" then Lexing Unquoted w argv done
          else Lexing SingleQuoted (push w c) argv done
      | DoubleQuoted =>
          if Ascii.eqb c dquote then Lexing Unquoted w argv done
          else if Ascii.eqb c "\" then Lexing DoubleEscaped w argv done
          else if one_of c ["$"; "`"]%char then Acting Expansion
          else Lexing DoubleQuoted (push w c) argv done
      | DoubleEscaped =>
          if one_of c ["$"; "`"; dquote; "\"]%char
          then Lexing DoubleQuoted (push w c) argv done
          else if Ascii.eqb c newline then Lexing DoubleQuoted w argv done
          else Lexing DoubleQuoted (push (push w "\") c) argv done
      | Escaped =>
          if Ascii.eqb c newline then Lexing Unquoted w argv done
          else Lexing Unquoted (push w c) argv done
      | Commented =>
          if Ascii.eqb c newline
          then Lexing Unquoted None [] (end_command w argv done)
          else Lexing Commented w argv done
      | Unquoted =>
          if Ascii.eqb c "'" then Lexing SingleQuoted (Some (word_of w)) argv done
          else if Ascii.eqb c dquote
          then Lexing DoubleQuoted (Some (word_of w)) argv done
          else if Ascii.eqb c "\" then Lexing Escaped w argv done
          else if one_of c ["$"; "`"]%char then Acting Expansion
          else if one_of c [" "%char; tab]
          then Lexing Unquoted None (end_word w argv) done
          else if one_of c [newline; ";"; "&"; "|"]%char
          then Lexing Unquoted None [] (end_command w argv done)
          else if one_of c ["<"; ">"]%char then Acting Redirection
          else if one_of c ["("; ")"]%char then Acting Grouping
          else if one_of c ["*"; "?"; "["]%char then Acting Globbing
          else
            match w with
            | None =>
                if Ascii.eqb c "#" then Lexing Commented None argv done
                else if Ascii.eqb c "~" then Acting TildePrefix
                else Lexing Unquoted (push w c) argv done
            | Some _ => Lexing Unquoted (push w c) argv done
            end
      end
  end.

Definition sh_start : sh_state := Lexing Unquoted None [] [].

Definition sh_run (st : sh_state) (script : str) : sh_state :=
  fold_left sh_step script st.

(** What the shell has done when the script ends. *)
Inductive sh_result : Type :=
| Runs (commands : list (list str))   (* these commands, these arguments *)
| Performs (a : activity)
| Unterminated.                       (* an open quote or a trailing backslash *)

Definition sh_finish (st : sh_state) : sh_result :=
  match st with
  | Acting a => Performs a
  | Lexing Unquoted w argv done => Runs (end_command w argv done)
  | Lexing Commented w argv done => Runs (end_command w argv done)
  | Lexing _ _ _ _ => Unterminated
  end.

Definition sh_interpret (script : str) : sh_result :=
  sh_finish (sh_run sh_start script).

(** The line without quoting, for comparison. *)
Definition unquoted_command (title message : str) : str :=
  join (lit " ") [lit "notify-send"; title; message].

(** * The rest of the program

    The functions of [utils.py], [backends.py], [cli.py] and [__main__.py]
    around the ones above.  Calls to [logging] other than the choice of
    the level write diagnostics and decide nothing; they are left out. *)

(** ** Exceptions of the command-line layer *)

Inductive py_exn : Type :=
| Builtin (e : exn)
| FileNotFoundError (text : str)       (* with [str(e)] *)
| ArgumentTypeError (msg : message).

Inductive completion (A : Type) : Type :=
| Returned (a : A)
| Raised (e : py_exn).

Arguments Returned {A} a.
Arguments Raised {A} e.

Definition lift {A : Type} (r : result A) : completion A :=
  match r with
  | Ok a => Returned a
  | Raise e => Raised (Builtin e)
  end.

(** ** The outside world *)

(** How [subprocess.run(argv, ...)] ends: the process exits with a return
    code, having written [stderr], or the executable does not exist.
    Other failures of the operating system to start a process are not
    modelled. *)
Inductive proc_result : Type :=
| Exited (code : Z) (stderr : str)
| NotFound (text : str).

Record world : Type := mk_world {
  w_which : str -> bool;                              (* [shutil.which] finds it *)
  w_spawn : list str -> option str -> proc_result;    (* argv, standard input *)
  w_now : datetime                                    (* [datetime.now()] *)
}.

Inductive effect : Type :=
| Lookup (cmd : str)
| Spawn (argv : list str) (input : option str)
| LogLevel (level : Z).

(** The search-path lookups recorded in a trace of the auto backend. *)
Definition lookups (tr : trace) : list effect :=
  flat_map (fun e => match e with
                     | Which cmd => [Lookup cmd]
                     | Forward _ _ => []
                     end) tr.

(** ** [datetime + timedelta] in general *)

Definition prev_day (d : datetime) : result datetime :=
  if (1 <? day d)%Z
  then Ok (mk_datetime (year d) (month d) (day d - 1)
             (hour d) (minute d) (second d) (microsecond d))
  else if (1 <? month d)%Z
  then Ok (mk_datetime (year d) (month d - 1)
             (days_in_month (year d) (month d - 1))
             (hour d) (minute d) (second d) (microsecond d))
  else if (1 <? year d)%Z
  then Ok (mk_datetime (year d - 1) 12 31
             (hour d) (minute d) (second d) (microsecond d))
  else Raise OverflowError.

Fixpoint sub_days (n : nat) (d : datetime) : result datetime :=
  match n with
  | O => Ok d
  | S k => d' <- prev_day d ;; sub_days k d'
  end.

(** [dt + delta]: the microseconds carry into the seconds, the seconds
    into the days, and the date moves by that many calendar days;
    [OverflowError] when it leaves years 1 to 9999. *)
Definition datetime_add (d : datetime) (delta : timedelta) : result datetime :=
  let us := (microsecond d + microseconds delta)%Z in
  let s := ((hour d * 60 + minute d) * 60 + second d + seconds delta
            + us / 1000000)%Z in
  let shift := (days delta + s / 86400)%Z in
  let sod := (s mod 86400)%Z in
  let t := mk_datetime (year d) (month d) (day d)
             (sod / 3600) (sod mod 3600 / 60) (sod mod 60) (us mod 1000000) in
  if (0 <=? shift)%Z then add_days (Z.to_nat shift) t
  else sub_days (Z.to_nat (- shift)) t.

(** [str(n)] for any integer. *)
Definition str_of_int (n : Z) : str :=
  if (n <? 0)%Z then lit "-" ++ str_of_Z (- n) else str_of_Z n.

(** ** [utils.verbosity_to_log_level] *)

Definition ERROR : Z := 40.
Definition WARNING : Z := 30.
Definition INFO : Z := 20.
Definition DEBUG : Z := 10.

Definition verbosity_to_log_level (verbosity : Z) : Z :=
  let error_threshold := (-2)%Z in
  if (verbosity <=? error_threshold)%Z then ERROR
  else if (verbosity =? -1)%Z then WARNING
  else if (verbosity =? 0)%Z then INFO
  else DEBUG.

(** ** [utils.check_notify_send] and [utils.run] *)

Definition msg_notify_send_missing : message :=
  [Lit (lit "notify-send not found: install libnotify package" ++ [newline]
        ++ lit "  Debian/Ubuntu: sudo apt install libnotify-bin" ++ [newline]
        ++ lit "  Fedora/RHEL: sudo dnf install libnotify" ++ [newline]
        ++ lit "  Arch: sudo pacman -S libnotify")].

Definition check_notify_send (w : world) : result unit * list effect :=
  (if w_which w (lit "notify-send") then Ok tt else die msg_notify_send_missing,
   [Lookup (lit "notify-send")]).

Definition msg_command_failed (code : Z) : message :=
  [Lit "command failed with exit code "; Lit (str_of_int code)].

(** [subprocess.run(cmd, check=True)] with both of its exceptions turned
    into [die]. *)
Definition run (w : world) (cmd : list str) : result unit * list effect :=
  (match w_spawn w cmd None with
   | NotFound text => die [Lit text]
   | Exited code _ =>
       if (code =? 0)%Z then Ok tt else die (msg_command_failed code)
   end,
   [Spawn cmd None]).

(** ** [SystemdBackend] *)

(** [when.strftime("%Y-%m-%d %H:%M:%S")]. *)
Definition strftime_calendar (d : datetime) : str :=
  strftime_Y (year d) ++ lit "-" ++ format_0d 2 (month d) ++ lit "-"
  ++ format_0d 2 (day d) ++ lit " "
  ++ format_0d 2 (hour d) ++ lit ":" ++ format_0d 2 (minute d) ++ lit ":"
  ++ format_0d 2 (second d).

Definition systemd_argv (unit trigger spec title message : str) : list str :=
  [lit "systemd-run"; lit "--user"; lit "--unit"; unit; trigger; spec;
   lit "--"; lit "notify-send"; title; message].

Definition systemd_schedule_in (w : world) (duration : timedelta)
    (title message : str) : result unit * list effect :=
  match format_systemd_duration duration with
  | Raise e => (Raise e, [])
  | Ok on_active =>
      match datetime_add (w_now w) duration with
      | Raise e => (Raise e, [])
      | Ok when =>
          let unit := unit_name (lit "remindme") when in
          run w (systemd_argv unit (lit "--on-active") on_active title message)
      end
  end.

Definition systemd_schedule_at (w : world) (when : datetime)
    (title message : str) : result unit * list effect :=
  let unit := unit_name (lit "remindme") when in
  let on_calendar := strftime_calendar when in
  run w (systemd_argv unit (lit "--on-calendar") on_calendar title message).

(** ** [AtBackend] *)

(** [when.strftime("%Y%m%d%H%M")]. *)
Definition at_timestamp (d : datetime) : str :=
  strftime_Y (year d) ++ format_0d 2 (month d) ++ format_0d 2 (day d)
  ++ format_0d 2 (hour d) ++ format_0d 2 (minute d).

Definition msg_at_failed (stderr : str) : message :=
  [Lit (lit "at failed:" ++ [newline]); Lit stderr].

(** [subprocess.run(["at", "-t", ts], input=..., capture_output=True,
    check=True)]: only [CalledProcessError] is caught.  The input is the
    line encoded as UTF-8; the strings of the model hold code points up
    to U+00FF, which all encode, so the [UnicodeEncodeError] of a lone
    surrogate (an undecodable byte of the command line) has no
    counterpart here. *)
Definition at_schedule_at (w : world) (when : datetime)
    (title message : str) : completion unit * list effect :=
  let ts := at_timestamp when in
  let shell_cmd := _build_notify_shell_command title message in
  let argv := [lit "at"; lit "-t"; ts] in
  let input := Some (shell_cmd ++ [newline]) in
  (match w_spawn w argv input with
   | NotFound text => Raised (FileNotFoundError text)
   | Exited code stderr =>
       if (code =? 0)%Z then Returned tt
       else
         let stderr := match stderr with
                       | [] => lit "unknown error"
                       | _ => strip stderr
                       end in
         lift (die (msg_at_failed stderr))
   end,
   [Spawn argv input]).

Definition at_schedule_in (w : world) (duration : timedelta)
    (title message : str) : completion unit * list effect :=
  match datetime_add (w_now w) duration with
  | Raise e => (Raised (Builtin e), [])
  | Ok when => at_schedule_at w when title message
  end.

(** ** Backend instances *)

Definition lift_fst {A B : Type} (p : result A * B) : completion A * B :=
  (lift (fst p), snd p).

(** A call on an instance of a concrete class.  A delegate is never an
    [AutoBackend] (the scan skips it), and that case does nothing. *)
Definition concrete_schedule (w : world) (cls : backend_cls) (c : call)
    : completion unit * list effect :=
  match cls, c with
  | SystemdBackend, ScheduleIn d title message =>
      lift_fst (systemd_schedule_in w d title message)
  | SystemdBackend, ScheduleAt when title message =>
      lift_fst (systemd_schedule_at w when title message)
  | AtBackend, ScheduleIn d title message => at_schedule_in w d title message
  | AtBackend, ScheduleAt when title message => at_schedule_at w when title message
  | AutoBackend, _ => (Returned tt, [])
  end.

Inductive backend : Type :=
| SystemdInstance
| AtInstance
| AutoInstance (self : auto_backend).

(** [backend_cls()]. *)
Definition instance_of (cls : backend_cls) : backend :=
  match cls with
  | SystemdBackend => SystemdInstance
  | AtBackend => AtInstance
  | AutoBackend => AutoInstance auto_new
  end.

(** [backend.schedule_in(...)] or [backend.schedule_at(...)]: the instance
    afterwards, how the call ended, and what it did. *)
Definition backend_schedule (w : world) (b : backend) (c : call)
    : backend * completion unit * list effect :=
  match b with
  | SystemdInstance =>
      let (r, fx) := concrete_schedule w SystemdBackend c in (b, r, fx)
  | AtInstance =>
      let (r, fx) := concrete_schedule w AtBackend c in (b, r, fx)
  | AutoInstance self =>
      let d := delegate (w_which w) self in
      match returned d with
      | Ok cls =>
          let (r, fx) := concrete_schedule w cls c in
          (AutoInstance (after d), r, lookups (events d) ++ fx)
      | Raise e =>
          (AutoInstance (after d), Raised (Builtin e), lookups (events d))
      end
  end.

(** [cls.is_available()] for any class of the registry. *)
Definition class_is_available (which : str -> bool) (cls : backend_cls)
    : bool * trace :=
  match cls with
  | AutoBackend => auto_is_available which
  | _ => concrete_is_available which cls
  end.

(** ** [cli.parse_backend] *)

(** [BACKENDS[name]], when [name in BACKENDS]. *)
Fixpoint registry_get (registry : list (str * backend_cls)) (name : str)
    : option backend_cls :=
  match registry with
  | [] => None
  | (k, cls) :: rest => if str_eqb k name then Some cls else registry_get rest name
  end.

Definition msg_unknown_backend (name : str) : message :=
  [Lit "unknown backend '"; Lit name; Lit "': choose from ";
   Lit (join (lit ", ") (map fst BACKENDS))].

Definition msg_backend_unavailable (name : str) : message :=
  [Lit "backend '"; Lit name; Lit "' is not available on this system"].

Definition parse_backend (which : str -> bool) (name : str)
    : completion backend * list effect :=
  match registry_get BACKENDS name with
  | None => (Raised (ArgumentTypeError (msg_unknown_backend name)), [])
  | Some cls =>
      let (available, tr) := class_is_available which cls in
      if available then (Returned (instance_of cls), lookups tr)
      else (Raised (ArgumentTypeError (msg_backend_unavailable name)), lookups tr)
  end.

(** ** [models] *)

Inductive Method : Type :=
| MethodIn (duration : timedelta) (message title : str)
| MethodAt (when : datetime) (message title : str).

Record Options : Type := mk_options {
  opt_backend : backend;
  opt_method : Method;
  opt_verbosity : Z
}.

(** ** [cli.parse_args], after [argparse] *)

(** The subcommand of the namespace, with the argument that [argparse]
    converted for it. *)
Inductive subcommand : Type :=
| CommandIn (duration : timedelta)
| CommandAt (when : datetime)
| CommandOther (name : str).

(** The namespace [p.parse_args(list(argv))] returns. *)
Record namespace : Type := mk_namespace {
  ns_backend : str;
  ns_title : str;
  ns_verbose : Z;
  ns_quiet : Z;
  ns_command : subcommand;
  ns_message : list str
}.

Definition msg_message_required : message := [Lit "message is required"].

Definition msg_unknown_command (name : str) : message :=
  [Lit "unknown command: "; Lit name].

(** [parse_args] from the line [verbosity = -1 + ns.verbose - ns.quiet]
    on. *)
Definition parse_args_after_argparse (which : str -> bool) (ns : namespace)
    : completion Options * list effect :=
  let verbosity := (-1 + ns_verbose ns - ns_quiet ns)%Z in
  match parse_backend which (ns_backend ns) with
  | (Raised e, fx) => (Raised e, fx)
  | (Returned b, fx) =>
      let title := ns_title ns in
      let msg := strip (join (lit " ") (ns_message ns)) in
      (match ns_command ns with
       | CommandIn duration =>
           match msg with
           | [] => lift (die msg_message_required)
           | _ => Returned (mk_options b (MethodIn duration msg title) verbosity)
           end
       | CommandAt when =>
           match msg with
           | [] => lift (die msg_message_required)
           | _ => Returned (mk_options b (MethodAt when msg title) verbosity)
           end
       | CommandOther name => lift (die (msg_unknown_command name))
       end, fx)
  end.

(** ** [__main__.main] *)

Definition call_of_method (m : Method) : call :=
  match m with
  | MethodIn duration msg title => ScheduleIn duration title msg
  | MethodAt when msg title => ScheduleAt when title msg
  end.

Definition main (w : world) (opt : Options) : completion Z * list effect :=
  let configured := [LogLevel (verbosity_to_log_level (opt_verbosity opt))] in
  match check_notify_send w with
  | (Raise e, fx) => (Raised (Builtin e), configured ++ fx)
  | (Ok _, fx) =>
      let '(_, r, fx') :=
        backend_schedule w (opt_backend opt) (call_of_method (opt_method opt)) in
      (match r with
       | Returned _ => Returned 0%Z
       | Raised e => Raised e
       end,
       configured ++ fx ++ fx')
  end.

(** The message and the title a method carries. *)
Definition method_message (m : Method) : str :=
  match m with
  | MethodIn _ msg _ => msg
  | MethodAt _ msg _ => msg
  end.

Definition method_title (m : Method) : str :=
  match m with
  | MethodIn _ _ title => title
  | MethodAt _ _ title => title
  end.

(** ** What the program may run *)

Definition is_spawn (e : effect) : bool :=
  match e with
  | Spawn _ _ => true
  | _ => false
  end.

Definition call_title (c : call) : str :=
  match c with
  | ScheduleIn _ title _ => title
  | ScheduleAt _ title _ => title
  end.

Definition call_message (c : call) : str :=
  match c with
  | ScheduleIn _ _ message => message
  | ScheduleAt _ _ message => message
  end.

(** The two processes a reminder is meant to start: systemd-run with the
    title and the message as its last two arguments after [--
    notify-send], and [at -t ts] fed the quoted notify-send line. *)
Definition intended_spawn (title message : str) (e : effect) : Prop :=
  match e with
  | Spawn argv input =>
      (exists unit trigger spec,
         argv = systemd_argv unit trigger spec title message /\ input = None) \/
      (exists ts,
         argv = [lit "at"; lit "-t"; ts] /\
         input = Some (at_input title message))
  | _ => True
  end.

(** * Properties *)

(** ** Decimal text *)

Lemma decimal_value_snoc (s : str) (c : ascii) :
  decimal_value (s ++ [c]) = (10 * decimal_value s + digit_value c)%Z.
Proof.
  unfold decimal_value. rewrite fold_left_app. reflexivity.
Qed.

Lemma forallb_snoc {A : Type} (f : A -> bool) (l : list A) (a : A) :
  forallb f (l ++ [a]) = forallb f l && f a.
Proof.
  rewrite forallb_app. simpl. rewrite andb_true_r. reflexivity.
Qed.

Lemma isdecimal_forallb (s : str) :
  isdecimal s = true <-> s <> [] /\ forallb isdecimal_char s = true.
Proof.
  destruct s; simpl; split; intros H;
    try discriminate; try (split; [discriminate | assumption]);
    destruct H as [H1 H2]; try assumption; contradiction.
Qed.

Lemma isdigit_forallb (s : str) :
  isdigit s = true <-> s <> [] /\ forallb isdigit_char s = true.
Proof.
  destruct s; simpl; split; intros H;
    try discriminate; try (split; [discriminate | assumption]);
    destruct H as [H1 H2]; try assumption; contradiction.
Qed.

Lemma isdecimal_char_isdigit (c : ascii) :
  isdecimal_char c = true -> isdigit_char c = true.
Proof.
  unfold isdigit_char, isdecimal_char. intros ->. reflexivity.
Qed.

Lemma isdecimal_isdigit (s : str) : isdecimal s = true -> isdigit s = true.
Proof.
  rewrite isdecimal_forallb, isdigit_forallb. intros [Hne H]. split; [assumption|].
  rewrite forallb_forall in *. intros c Hc. apply isdecimal_char_isdigit. auto.
Qed.

Lemma digit_value_range (c : ascii) :
  isdecimal_char c = true -> (0 <= digit_value c <= 9)%Z.
Proof.
  unfold isdecimal_char, between, digit_value. intros H.
  apply andb_prop in H. destruct H as [H1 H2].
  apply N.leb_le in H1. apply N.leb_le in H2. lia.
Qed.

Lemma decimal_value_nonneg (s : str) :
  forallb isdecimal_char s = true -> (0 <= decimal_value s)%Z.
Proof.
  induction s as [|c s IH] using rev_ind; intros H.
  - unfold decimal_value. simpl. lia.
  - rewrite forallb_snoc in H. apply andb_prop in H. destruct H as [Hs Hc].
    rewrite decimal_value_snoc. pose proof (digit_value_range c Hc).
    specialize (IH Hs). lia.
Qed.

Lemma digit_char_decimal (d : Z) :
  (0 <= d <= 9)%Z ->
  isdecimal_char (digit_char d) = true /\ digit_value (digit_char d) = d.
Proof.
  intros H.
  assert (Hd : In d [0; 1; 2; 3; 4; 5; 6; 7; 8; 9]%Z) by (simpl; lia).
  simpl in Hd.
  repeat (destruct Hd as [<- | Hd]; [split; reflexivity|]).
  contradiction.
Qed.

Lemma str_of_fuel_S (f : nat) (n : Z) :
  str_of_fuel (S f) n =
  if (n <? 10)%Z then [digit_char n]
  else str_of_fuel f (n / 10)%Z ++ [digit_char (n mod 10)%Z].
Proof. reflexivity. Qed.

Lemma str_of_fuel_spec (fuel : nat) :
  forall n : Z, (0 <= n < 2 ^ Z.of_nat (S fuel))%Z ->
    str_of_fuel (S fuel) n <> [] /\
    forallb isdecimal_char (str_of_fuel (S fuel) n) = true /\
    decimal_value (str_of_fuel (S fuel) n) = n.
Proof.
  induction fuel as [|f IH]; intros n Hn;
    rewrite str_of_fuel_S; destruct (Z.ltb_spec n 10) as [Hlt | Hge].
  - destruct (digit_char_decimal n) as [H1 H2]; [lia|].
    split; [discriminate|]. split.
    + simpl. rewrite H1. reflexivity.
    + unfold decimal_value. simpl. rewrite H2. reflexivity.
  - simpl in Hn. lia.
  - destruct (digit_char_decimal n) as [H1 H2]; [lia|].
    split; [discriminate|]. split.
    + simpl. rewrite H1. reflexivity.
    + unfold decimal_value. simpl. rewrite H2. reflexivity.
  - assert (Hpow : (2 ^ Z.of_nat (S (S f)) = 2 * 2 ^ Z.of_nat (S f))%Z).
    { rewrite (Nat2Z.inj_succ (S f)). rewrite Z.pow_succ_r by lia. reflexivity. }
    assert (Hq : (0 <= n / 10 < 2 ^ Z.of_nat (S f))%Z).
    { pose proof (Z.div_mod n 10 ltac:(lia)).
      pose proof (Z.mod_pos_bound n 10 ltac:(lia)).
      pose proof (Z.pow_pos_nonneg 2 (Z.of_nat (S f)) ltac:(lia) ltac:(lia)). lia. }
    destruct (IH _ Hq) as (Hne & Hall & Hval).
    destruct (digit_char_decimal (n mod 10)) as [H1 H2].
    { pose proof (Z.mod_pos_bound n 10 ltac:(lia)). lia. }
    split; [intros E; apply app_eq_nil in E; destruct E; discriminate|].
    split.
    + rewrite forallb_snoc, Hall, H1. reflexivity.
    + rewrite decimal_value_snoc, Hval, H2.
      pose proof (Z.div_mod n 10 ltac:(lia)). lia.
Qed.

Lemma str_of_Z_spec (n : Z) :
  (0 <= n)%Z ->
  isdecimal (str_of_Z n) = true /\ decimal_value (str_of_Z n) = n.
Proof.
  intros Hn. unfold str_of_Z.
  assert (Hb : (0 <= n < 2 ^ Z.of_nat (S (Z.to_nat (Z.log2 n))))%Z).
  { split; [assumption|].
    rewrite Nat2Z.inj_succ, Z2Nat.id by apply Z.log2_nonneg.
    destruct (Z.eq_dec n 0) as [-> | Hnz]; [reflexivity|].
    apply Z.log2_spec. lia. }
  destruct (str_of_fuel_spec _ _ Hb) as (Hne & Hall & Hval).
  split; [|assumption].
  apply isdecimal_forallb. split; assumption.
Qed.

Lemma str_of_fuel_length (fuel : nat) :
  forall (k : nat) (n : Z),
    (0 <= n < 10 ^ Z.of_nat (S k))%Z ->
    (length (str_of_fuel fuel n) <= S k)%nat.
Proof.
  induction fuel as [|f IH]; intros k n Hn; [simpl; lia|].
  rewrite str_of_fuel_S. destruct (Z.ltb_spec n 10) as [Hlt | Hge].
  - simpl. lia.
  - rewrite length_app. simpl length.
    destruct k as [|k]; [simpl in Hn; lia|].
    assert (Hq : (0 <= n / 10 < 10 ^ Z.of_nat (S k))%Z).
    { rewrite (Nat2Z.inj_succ (S k)) in Hn.
      rewrite Z.pow_succ_r in Hn by lia.
      pose proof (Z.div_mod n 10 ltac:(lia)).
      pose proof (Z.mod_pos_bound n 10 ltac:(lia)). lia. }
    specialize (IH k (n / 10)%Z Hq). lia.
Qed.

Lemma str_of_fuel_length_ge (k : nat) :
  forall (fuel : nat) (n : Z),
    (10 ^ Z.of_nat k <= n)%Z -> (k < fuel)%nat ->
    (S k <= length (str_of_fuel fuel n))%nat.
Proof.
  induction k as [|k IH]; intros fuel n Hn Hf;
    (destruct fuel as [|f]; [lia|]); rewrite str_of_fuel_S.
  - destruct (n <? 10)%Z; [simpl; lia|]. rewrite length_app. simpl. lia.
  - rewrite Nat2Z.inj_succ, Z.pow_succ_r in Hn by lia.
    pose proof (Z.pow_pos_nonneg 10 (Z.of_nat k) ltac:(lia) ltac:(lia)) as Hp.
    destruct (Z.ltb_spec n 10) as [Hlt | Hge]; [lia|].
    rewrite length_app. simpl length.
    assert (Hq : (10 ^ Z.of_nat k <= n / 10)%Z).
    { apply Z.div_le_lower_bound; lia. }
    specialize (IH f (n / 10)%Z Hq ltac:(lia)). lia.
Qed.

Lemma str_of_Z_length (k : nat) (n : Z) :
  (0 <= n < 10 ^ Z.of_nat (S k))%Z -> (length (str_of_Z n) <= S k)%nat.
Proof. intros Hn. apply str_of_fuel_length. exact Hn. Qed.

(** A number of four digits is printed on four characters. *)
Lemma str_of_Z_four_digits (y : Z) :
  (1000 <= y <= 9999)%Z -> length (str_of_Z y) = 4%nat.
Proof.
  intros Hy.
  assert (Hup : (length (str_of_Z y) <= 4)%nat)
    by (apply (str_of_Z_length 3); simpl; lia).
  assert (Hlo : (4 <= length (str_of_Z y))%nat).
  { unfold str_of_Z. apply (str_of_fuel_length_ge 3); [simpl; lia|].
    assert (Hlog : (9 <= Z.log2 y)%Z).
    { change 9%Z with (Z.log2 1000). apply Z.log2_le_mono. lia. }
    lia. }
  lia.
Qed.

(** The conversion of a numeral of one to eight digits is not capped. *)
Lemma int_of_str_of_Z (n : Z) :
  (0 <= n < 10 ^ 8)%Z -> int_of_digits (str_of_Z n) = Some n.
Proof.
  intros Hn. destruct (str_of_Z_spec n ltac:(lia)) as [H1 H2].
  pose proof (str_of_Z_length 7 n Hn) as Hl.
  unfold int_of_digits, MAX_STR_DIGITS. rewrite H1, H2.
  destruct (Z.ltb_spec 4300 (Z.of_nat (length (str_of_Z n)))); [lia | reflexivity].
Qed.

(** ** Trimming and lowercasing *)

Lemma isdecimal_char_not_space (c : ascii) :
  isdecimal_char c = true -> isspace c = false.
Proof.
  unfold isdecimal_char, isspace, between. intros H.
  apply andb_prop in H. destruct H as [H1 H2].
  apply N.leb_le in H1. apply N.leb_le in H2.
  repeat (apply orb_false_intro);
    try (apply andb_false_iff; (left + right); apply N.leb_gt; lia);
    apply N.eqb_neq; lia.
Qed.

Lemma isdecimal_char_lower (c : ascii) :
  isdecimal_char c = true -> lower_char c = c.
Proof.
  unfold isdecimal_char, lower_char, between. intros H.
  apply andb_prop in H. destruct H as [H1 H2].
  apply N.leb_le in H1. apply N.leb_le in H2.
  replace (ord c <=? 90)%N with true by (symmetry; apply N.leb_le; lia).
  replace (65 <=? ord c)%N with false by (symmetry; apply N.leb_gt; lia).
  replace (192 <=? ord c)%N with false by (symmetry; apply N.leb_gt; lia).
  reflexivity.
Qed.

Lemma is_unit_cases (u : ascii) :
  is_unit u = true ->
  u = "s"%char \/ u = "m"%char \/ u = "h"%char \/ u = "d"%char.
Proof.
  unfold is_unit. simpl. intros H.
  repeat (apply orb_prop in H; destruct H as [H | H]);
    try discriminate; apply Ascii.eqb_eq in H; auto.
Qed.

Lemma lstrip_nonspace (c : ascii) (s : str) :
  isspace c = false -> lstrip (c :: s) = c :: s.
Proof. intros H. simpl. rewrite H. reflexivity. Qed.

Lemma rstrip_nonspace (b : ascii) (s : str) :
  isspace b = false -> rstrip (s ++ [b]) = s ++ [b].
Proof.
  intros Hb. unfold rstrip. rewrite rev_unit.
  rewrite lstrip_nonspace by assumption.
  simpl. rewrite rev_involutive. reflexivity.
Qed.

Lemma strip_bounded (a b : ascii) (s : str) :
  isspace a = false -> isspace b = false ->
  strip (a :: s ++ [b]) = a :: s ++ [b].
Proof.
  intros Ha Hb. unfold strip. rewrite lstrip_nonspace by assumption.
  apply (rstrip_nonspace b (a :: s)). assumption.
Qed.

Lemma lower_decimal (s : str) :
  forallb isdecimal_char s = true -> lower s = s.
Proof.
  unfold lower. induction s as [|c s IH]; simpl; intros H; [reflexivity|].
  apply andb_prop in H. destruct H as [Hc Hs].
  rewrite isdecimal_char_lower by assumption.
  rewrite IH by assumption. reflexivity.
Qed.

(** A numeral followed by a unit letter is left alone by
    [text.strip().lower()]. *)
Lemma normalise_numeral_unit (ds : str) (u : ascii) :
  isdecimal ds = true -> is_unit u = true ->
  lower (strip (ds ++ [u])) = ds ++ [u].
Proof.
  intros Hds Hu. apply isdecimal_forallb in Hds. destruct Hds as [Hne Hall].
  destruct ds as [|a ds]; [contradiction|].
  assert (Ha : isspace a = false).
  { apply isdecimal_char_not_space. simpl in Hall.
    apply andb_prop in Hall. tauto. }
  assert (Hus : isspace u = false /\ lower_char u = u).
  { destruct (is_unit_cases u Hu) as [-> | [-> | [-> | ->]]]; split; reflexivity. }
  destruct Hus as [Hus Hul].
  change ((a :: ds) ++ [u]) with (a :: ds ++ [u]).
  rewrite strip_bounded by assumption.
  change (a :: ds ++ [u]) with ((a :: ds) ++ [u]).
  unfold lower. rewrite map_app. simpl map at 2. rewrite Hul.
  f_equal. apply lower_decimal. assumption.
Qed.

(** ** [parse_duration]: the outcome on every input *)

(** An exact quotient below 2^53 is a float, and [int] gives it back. *)
Lemma int_of_true_division_exact (t b : Z) :
  (0 <= t < 2 ^ 53)%Z -> (0 < b)%Z -> int_of_true_division (t * b) b = t.
Proof.
  intros Ht Hb. unfold int_of_true_division.
  destruct (Z.eqb_spec (t * b) 0) as [E | Hne]; [nia|].
  assert (Ht1 : (1 <= t)%Z) by nia.
  unfold binary_exponent.
  destruct (Z.leb_spec b (t * b)) as [_ | Hlt]; [|nia].
  rewrite Z.div_mul by lia.
  assert (Hlog : (Z.log2 t < 53)%Z) by (apply Z.log2_lt_pow2; lia).
  destruct (Z.leb_spec 0 (52 - Z.log2 t)) as [Hs | Hs]; [|lia].
  set (s := (52 - Z.log2 t)%Z) in *.
  pose proof (Z.pow_pos_nonneg 2 s ltac:(lia) Hs) as Hp.
  unfold round_half_even.
  replace (t * b * 2 ^ s)%Z with (t * 2 ^ s * b)%Z by ring.
  rewrite Z.div_mul, Z.mod_mul by lia. cbv zeta.
  destruct (Z.ltb_spec (2 * 0) b); [|lia].
  apply Z.div_mul. lia.
Qed.

Lemma whole_seconds_span (t : Z) :
  (0 <= t < 2 ^ 53)%Z -> whole_seconds (span_delta t) = t.
Proof.
  intros Ht. unfold whole_seconds, total_microseconds, span_delta.
  cbn [days seconds microseconds]. rewrite Z.add_0_r.
  replace (t / 86400 * 86400 + t mod 86400)%Z with t
    by (pose proof (Z.div_mod t 86400 ltac:(lia)); lia).
  cbv zeta. destruct (Z.ltb_spec (t * 1000000) 0); [lia|].
  apply int_of_true_division_exact; [exact Ht | lia].
Qed.

Lemma max_span_small : (max_span < 2 ^ 53)%Z.
Proof. reflexivity. Qed.

(** A duration without microseconds is a whole number of seconds, and
    up to 2^53 of them (timedelta holds fewer than 2^47) the float of
    [total_seconds] is that number. *)
Lemma whole_seconds_integral (d : timedelta) :
  microseconds d = 0%Z ->
  (Z.abs (days d * 86400 + seconds d) < 2 ^ 53)%Z ->
  whole_seconds d = (days d * 86400 + seconds d)%Z.
Proof.
  intros Hus Hb. unfold whole_seconds, total_microseconds. rewrite Hus.
  rewrite Z.add_0_r. set (t := (days d * 86400 + seconds d)%Z) in *. cbv zeta.
  destruct (Z.ltb_spec (t * 1000000) 0) as [Hneg | Hnn].
  - replace (- (t * 1000000))%Z with (- t * 1000000)%Z by ring.
    rewrite int_of_true_division_exact; lia.
  - apply int_of_true_division_exact; lia.
Qed.

Lemma span_gt_max (t : Z) :
  timedelta_gt (span_delta t) (mk_timedelta 365 0 0) = (t >? max_span)%Z.
Proof.
  unfold timedelta_gt, timedelta_cmp, span_delta, max_span. simpl.
  pose proof (Z.div_mod t 86400 ltac:(lia)) as Hdm.
  pose proof (Z.mod_pos_bound t 86400 ltac:(lia)) as Hm.
  rewrite Z.gtb_ltb.
  destruct (Z.ltb_spec 31536000 t) as [Hlt | Hge];
    destruct (Z.compare_spec (t / 86400) 365) as [He | Hl | Hg];
    try destruct (Z.compare_spec (t mod 86400) 0) as [He' | Hl' | Hg'];
    try reflexivity; lia.
Qed.

Lemma unit_dispatch (u : ascii) (n : Z) :
  is_unit u = true ->
  (if Ascii.eqb u "s" then timedelta_new 0 n 0 0
   else if Ascii.eqb u "m" then timedelta_new 0 0 n 0
   else if Ascii.eqb u "h" then timedelta_new 0 0 0 n
   else if Ascii.eqb u "d" then timedelta_new n 0 0 0
   else die (msg_invalid_unit u)) =
  (if (Z.abs (n * unit_seconds u / 86400) >? MAX_DELTA_DAYS)%Z
   then Raise OverflowError
   else Ok (span_delta (n * unit_seconds u))).
Proof.
  intros Hu.
  destruct (is_unit_cases u Hu) as [-> | [-> | [-> | ->]]];
    unfold timedelta_new, unit_seconds, span_delta; simpl Ascii.eqb; cbv iota zeta;
    rewrite ?Z.mul_0_l, ?Z.add_0_l, ?Z.add_0_r, ?Z.mul_1_r; reflexivity.
Qed.

Lemma unit_seconds_pos (u : ascii) :
  is_unit u = true -> (1 <= unit_seconds u <= 86400)%Z.
Proof.
  intros Hu.
  destruct (is_unit_cases u Hu) as [-> | [-> | [-> | ->]]];
    unfold unit_seconds; simpl; lia.
Qed.

Lemma parse_duration_outcome (text : str) :
  duration_outcome (lower (strip text)) (parse_duration text).
Proof.
  unfold parse_duration.
  set (t := lower (strip text)).
  destruct t as [|c0 t0] eqn:Et; [apply DurEmpty; reflexivity|].
  rewrite <- Et.
  assert (Hne : t <> []) by (rewrite Et; discriminate).
  pose proof (app_removelast_last "000"%char Hne) as Hsplit.
  set (ds := removelast t) in *. set (u := last t "000"%char) in *.
  destruct (is_unit u) eqn:Hu; simpl negb; cbv beta iota;
    [|eapply DurShape; [exact Hsplit | left; exact Hu]].
  destruct (isdigit ds) eqn:Hdig; simpl negb; simpl orb; cbv beta iota;
    [|eapply DurShape; [exact Hsplit | right; exact Hdig]].
  unfold int_of_digits.
  destruct (isdecimal ds) eqn:Hdec;
    [|eapply DurNotDecimal; eauto].
  destruct (Z.ltb_spec MAX_STR_DIGITS (Z.of_nat (length ds))) as [Hlong | Hshort];
    [eapply DurTooManyDigits; eauto|].
  pose proof (proj1 (isdecimal_forallb ds) Hdec) as [_ Hall].
  pose proof (decimal_value_nonneg ds Hall) as Hnn.
  pose proof (unit_seconds_pos u Hu) as Hus.
  destruct (Z.leb_spec (decimal_value ds) 0) as [Hle | Hpos].
  { eapply DurZero; eauto. lia. }
  rewrite (unit_dispatch u (decimal_value ds) Hu).
  set (total := (decimal_value ds * unit_seconds u)%Z) in *.
  assert (Hq : (0 <= total / 86400)%Z) by (apply Z.div_pos; lia).
  rewrite Z.abs_eq by assumption. rewrite Z.gtb_ltb.
  destruct (Z.ltb_spec MAX_DELTA_DAYS (total / 86400)) as [Hov | Hin].
  { eapply DurOverflow; eauto. }
  unfold bind at 1. change (timedelta_new 365 0 0 0) with (Ok (mk_timedelta 365 0 0)).
  unfold bind. rewrite span_gt_max. rewrite Z.gtb_ltb.
  destruct (Z.ltb_spec max_span total) as [Hbig | Hok].
  - eapply DurTooLarge; eauto.
  - eapply DurOk; eauto.
Qed.

(** The eight outcomes exclude one another: the decomposition of [t]
    into magnitude and unit is unique, and the guards are disjoint. *)
Lemma duration_outcome_ok_inv (t : str) (d : timedelta) :
  duration_outcome t (Ok d) ->
  exists ds u,
    t = ds ++ [u] /\ is_unit u = true /\ isdecimal ds = true /\
    (Z.of_nat (length ds) <= MAX_STR_DIGITS)%Z /\
    (0 < decimal_value ds)%Z /\
    (decimal_value ds * unit_seconds u <= max_span)%Z /\
    d = span_delta (decimal_value ds * unit_seconds u).
Proof.
  intros H. inversion H; subst. exists ds, u. repeat split; assumption.
Qed.

Lemma duration_outcome_det (t : str) (r1 r2 : result timedelta) :
  duration_outcome t r1 -> duration_outcome t r2 -> r1 = r2.
Proof.
  assert (Hmax : (max_span / 86400 <= MAX_DELTA_DAYS)%Z) by (vm_compute; discriminate).
  intros H1 H2.
  destruct H1; destruct H2; subst; try reflexivity;
    try (exfalso; eapply app_cons_not_nil; eassumption);
    try (exfalso; eapply app_cons_not_nil; symmetry; eassumption);
    repeat match goal with
    | E : _ ++ [_] = _ ++ [_] |- _ => apply app_inj_tail in E; destruct E; subst
    | H : _ \/ _ |- _ => destruct H
    | H : isdecimal ?s = true, H' : isdigit ?s = false |- _ =>
        apply isdecimal_isdigit in H; congruence
    end;
    try congruence; try reflexivity;
    try (exfalso;
         match goal with
         | Hu : is_unit ?u = true |- _ => pose proof (unit_seconds_pos u Hu)
         end;
         match goal with
         | Hov : (MAX_DELTA_DAYS < ?x / 86400)%Z |- _ =>
             pose proof (Z.div_le_mono x max_span 86400 ltac:(lia))
         | _ => idtac
         end;
         unfold max_span, MAX_DELTA_DAYS, MAX_STR_DIGITS in *; nia).
Qed.

Lemma parse_duration_ok_iff (text : str) (d : timedelta) :
  parse_duration text = Ok d <->
  exists ds u,
    lower (strip text) = ds ++ [u] /\ is_unit u = true /\
    isdecimal ds = true /\ (Z.of_nat (length ds) <= MAX_STR_DIGITS)%Z /\
    (0 < decimal_value ds)%Z /\
    (decimal_value ds * unit_seconds u <= max_span)%Z /\
    d = span_delta (decimal_value ds * unit_seconds u).
Proof.
  pose proof (parse_duration_outcome text) as Hout. split.
  - intros E. rewrite E in Hout. apply duration_outcome_ok_inv. exact Hout.
  - intros (ds & u & Et & Hu & Hdec & Hlen & Hpos & Hmax & ->).
    eapply duration_outcome_det; [exact Hout|].
    eapply DurOk; eauto.
Qed.

Lemma parse_duration_numeral (n : Z) (u : ascii) :
  (0 < n)%Z -> is_unit u = true -> (n * unit_seconds u <= max_span)%Z ->
  parse_duration (str_of_Z n ++ [u]) = Ok (span_delta (n * unit_seconds u)).
Proof.
  intros Hn Hu Hmax.
  destruct (str_of_Z_spec n ltac:(lia)) as [Hdec Hval].
  pose proof (unit_seconds_pos u Hu) as Hus.
  assert (Hlen : (length (str_of_Z n) <= 8)%nat).
  { apply (str_of_Z_length 7). unfold max_span in Hmax. simpl. nia. }
  apply parse_duration_ok_iff. exists (str_of_Z n), u.
  rewrite normalise_numeral_unit by assumption. rewrite Hval.
  unfold MAX_STR_DIGITS. repeat split; auto. lia.
Qed.

Lemma duration_messages_distinct (a b c : str) :
  msg_empty_duration <> msg_expected a /\
  msg_empty_duration <> msg_must_be_positive b /\
  msg_empty_duration <> msg_maximum c /\
  msg_expected a <> msg_must_be_positive b /\
  msg_expected a <> msg_maximum c /\
  msg_must_be_positive b <> msg_maximum c.
Proof.
  unfold msg_empty_duration, msg_expected, msg_must_be_positive, msg_maximum.
  repeat split; intros E; discriminate E.
Qed.

(** C4.  [parse_duration] returns a duration exactly when the trimmed,
    lowercased text is a numeral of decimal digits followed by one of
    s, m, h, d, the numeral has at most 4300 digits (the limit of [int]
    on a digit string), is positive and the span is at most 365 days;
    the duration is then the numeral times the unit's seconds (in
    particular for the canonical numeral of every such N).  Every other
    text is rejected: blank text with the empty-duration message, a
    missing or unknown unit or a magnitude that is not a digit string with
    the expected-like message, a zero magnitude with the must-be-positive
    message, a span over 365 days with the maximum message (or, past the
    range of timedelta, with OverflowError), a digit string that is not
    decimal with ValueError; the four messages differ from one another.
    C4 fails on the code for a decimal numeral of more than 4300 digits:
    [int] refuses it with ValueError whatever its value, so one second
    written with 4300 zeros in front is not returned. *)
Theorem parse_duration_spec (text : str) :
  let t := lower (strip text) in
  (forall d, parse_duration text = Ok d <->
     exists ds u,
       t = ds ++ [u] /\ is_unit u = true /\ isdecimal ds = true /\
       (Z.of_nat (length ds) <= MAX_STR_DIGITS)%Z /\
       (0 < decimal_value ds)%Z /\
       (decimal_value ds * unit_seconds u <= max_span)%Z /\
       d = span_delta (decimal_value ds * unit_seconds u)) /\
  (forall total, (0 <= total <= max_span)%Z ->
     whole_seconds (span_delta total) = total /\
     microseconds (span_delta total) = 0%Z) /\
  (forall n u, (0 < n)%Z -> is_unit u = true ->
     (n * unit_seconds u <= max_span)%Z ->
     parse_duration (str_of_Z n ++ [u]) = Ok (span_delta (n * unit_seconds u))) /\
  (t = [] -> parse_duration text = die msg_empty_duration) /\
  (forall ds u, t = ds ++ [u] ->
     is_unit u = false \/ isdigit ds = false ->
     parse_duration text = die (msg_expected t)) /\
  (forall ds u, t = ds ++ [u] ->
     is_unit u = true -> isdigit ds = true -> isdecimal ds = false ->
     parse_duration text = Raise ValueError) /\
  (forall ds u, t = ds ++ [u] ->
     is_unit u = true -> isdecimal ds = true ->
     (Z.of_nat (length ds) <= MAX_STR_DIGITS)%Z ->
     decimal_value ds = 0%Z ->
     parse_duration text = die (msg_must_be_positive t)) /\
  (forall ds u, t = ds ++ [u] ->
     is_unit u = true -> isdecimal ds = true ->
     (Z.of_nat (length ds) <= MAX_STR_DIGITS)%Z ->
     (max_span < decimal_value ds * unit_seconds u)%Z ->
     (decimal_value ds * unit_seconds u / 86400 <= MAX_DELTA_DAYS)%Z ->
     parse_duration text = die (msg_maximum t)) /\
  (forall ds u, t = ds ++ [u] ->
     is_unit u = true -> isdecimal ds = true ->
     (Z.of_nat (length ds) <= MAX_STR_DIGITS)%Z ->
     (MAX_DELTA_DAYS < decimal_value ds * unit_seconds u / 86400)%Z ->
     parse_duration text = Raise OverflowError) /\
  (forall ds u, t = ds ++ [u] ->
     is_unit u = true -> isdecimal ds = true ->
     (MAX_STR_DIGITS < Z.of_nat (length ds))%Z ->
     parse_duration text = Raise ValueError) /\
  (forall a b c,
     msg_empty_duration <> msg_expected a /\
     msg_empty_duration <> msg_must_be_positive b /\
     msg_empty_duration <> msg_maximum c /\
     msg_expected a <> msg_must_be_positive b /\
     msg_expected a <> msg_maximum c /\
     msg_must_be_positive b <> msg_maximum c).
Proof.
  intros t. pose proof (parse_duration_outcome text) as Hout. fold t in Hout.
  split; [intros d; apply parse_duration_ok_iff|].
  split.
  { intros total Ht. split; [|reflexivity].
    apply whole_seconds_span. pose proof max_span_small. lia. }
  split; [exact parse_duration_numeral|].
  split; [intros E; eapply duration_outcome_det; [exact Hout | apply DurEmpty; exact E]|].
  split; [intros ds u E H; eapply duration_outcome_det; [exact Hout | eapply DurShape; eauto]|].
  split; [intros ds u E H1 H2 H3; eapply duration_outcome_det; [exact Hout | eapply DurNotDecimal; eauto]|].
  split; [intros ds u E H1 H2 H3 H4; eapply duration_outcome_det; [exact Hout | eapply DurZero; eauto]|].
  split; [intros ds u E H1 H2 H3 H4 H5; eapply duration_outcome_det; [exact Hout | eapply DurTooLarge; eauto]|].
  split; [intros ds u E H1 H2 H3 H4; eapply duration_outcome_det; [exact Hout | eapply DurOverflow; eauto]|].
  split; [intros ds u E H1 H2 H3; eapply duration_outcome_det; [exact Hout | eapply DurTooManyDigits; eauto]|].
  exact duration_messages_distinct.
Qed.

(** The tested durations, through the characterisation, and one second
    written with 4300 zeros in front. *)
Lemma parse_duration_spec_witness :
  parse_duration "30m" = Ok (mk_timedelta 0 1800 0) /\
  parse_duration "365d" = Ok (mk_timedelta 365 0 0) /\
  parse_duration "   " = die msg_empty_duration /\
  parse_duration "30" = die (msg_expected "30") /\
  parse_duration "-5m" = die (msg_expected "-5m") /\
  parse_duration "0m" = die (msg_must_be_positive "0m") /\
  parse_duration "8761h" = die (msg_maximum "8761h") /\
  parse_duration (repeat "0"%char 4300 ++ lit "1s") = Raise ValueError.
Proof.
  split.
  { apply (proj1 (proj2 (proj2 (parse_duration_spec "30m"))) 30%Z "m"%char);
      [lia | reflexivity | vm_compute; discriminate]. }
  split.
  { apply (proj1 (proj2 (proj2 (parse_duration_spec "365d"))) 365%Z "d"%char);
      [lia | reflexivity | vm_compute; discriminate]. }
  split.
  { apply (proj1 (proj2 (proj2 (proj2 (parse_duration_spec "   "))))). reflexivity. }
  split.
  { apply (proj1 (proj2 (proj2 (proj2 (proj2 (parse_duration_spec "30")))))
             (lit "3") "0"%char); [reflexivity | left; reflexivity]. }
  split.
  { apply (proj1 (proj2 (proj2 (proj2 (proj2 (parse_duration_spec "-5m")))))
             (lit "-5") "m"%char); [reflexivity | right; reflexivity]. }
  split.
  { apply (proj1 (proj2 (proj2 (proj2 (proj2 (proj2 (proj2
             (parse_duration_spec "0m")))))))
             (lit "0") "m"%char);
      [reflexivity | reflexivity | reflexivity | vm_compute; discriminate | reflexivity]. }
  split.
  { apply (proj1 (proj2 (proj2 (proj2 (proj2 (proj2 (proj2 (proj2
             (parse_duration_spec "8761h"))))))))
             (lit "8761") "h"%char);
      [reflexivity | reflexivity | reflexivity | vm_compute; discriminate
      | reflexivity | vm_compute; discriminate]. }
  apply (proj1 (proj2 (proj2 (proj2 (proj2 (proj2 (proj2 (proj2 (proj2 (proj2
           (parse_duration_spec (repeat "0"%char 4300 ++ lit "1s")))))))))))
           (repeat "0"%char 4300 ++ lit "1") "s"%char);
    [vm_compute; reflexivity | reflexivity | vm_compute; reflexivity
    | vm_compute; reflexivity].
Defined.

(** ** [format_systemd_duration] *)

Lemma format_non_positive (delta : timedelta) :
  (whole_seconds delta <= 0)%Z ->
  format_systemd_duration delta = die msg_non_positive.
Proof.
  intros H. unfold format_systemd_duration.
  destruct (Z.leb_spec (whole_seconds delta) 0); [reflexivity | lia].
Qed.

Lemma format_positive (delta : timedelta) :
  (0 < whole_seconds delta)%Z ->
  exists q u letter,
    In (u, letter) systemd_units /\
    whole_seconds delta = (q * u)%Z /\
    (forall u' letter', In (u', letter') systemd_units ->
       (u' | whole_seconds delta)%Z -> (u' <= u)%Z) /\
    format_systemd_duration delta = Ok (str_of_Z q ++ [letter]).
Proof.
  intros Hpos. unfold format_systemd_duration.
  set (s := whole_seconds delta) in *.
  destruct (Z.leb_spec s 0) as [Hle | _]; [lia|]. cbv zeta.
  change (24 * 3600)%Z with 86400%Z.
  assert (Hdiv : forall k, (0 < k)%Z -> (s mod k)%Z <> 0%Z -> ~ (k | s)%Z).
  { intros k Hk Hm Hd. apply Hm. apply Z.mod_divide; [lia | exact Hd]. }
  assert (Hex : forall k, (0 < k)%Z -> (s mod k)%Z = 0%Z -> s = (s / k * k)%Z).
  { intros k Hk Hm. pose proof (Z.div_mod s k ltac:(lia)). lia. }
  destruct (Z.eqb_spec (s mod 86400) 0) as [E1 | N1].
  { exists (s / 86400)%Z, 86400%Z, "d"%char.
    split; [simpl; auto|]. split; [apply Hex; lia|]. split; [|reflexivity].
    intros u' l' Hin _. simpl in Hin.
    repeat (destruct Hin as [Hin | Hin]; [inversion Hin; lia|]). contradiction. }
  destruct (Z.eqb_spec (s mod 3600) 0) as [E2 | N2].
  { exists (s / 3600)%Z, 3600%Z, "h"%char.
    split; [simpl; auto|]. split; [apply Hex; lia|]. split; [|reflexivity].
    intros u' l' Hin Hd. simpl in Hin.
    destruct Hin as [Hin | Hin];
      [inversion Hin; subst; exfalso; apply (Hdiv 86400%Z); auto; lia|].
    repeat (destruct Hin as [Hin | Hin]; [inversion Hin; lia|]). contradiction. }
  destruct (Z.eqb_spec (s mod 60) 0) as [E3 | N3].
  { exists (s / 60)%Z, 60%Z, "m"%char.
    split; [simpl; auto|]. split; [apply Hex; lia|]. split; [|reflexivity].
    intros u' l' Hin Hd. simpl in Hin.
    destruct Hin as [Hin | Hin];
      [inversion Hin; subst; exfalso; apply (Hdiv 86400%Z); auto; lia|].
    destruct Hin as [Hin | Hin];
      [inversion Hin; subst; exfalso; apply (Hdiv 3600%Z); auto; lia|].
    repeat (destruct Hin as [Hin | Hin]; [inversion Hin; lia|]). contradiction. }
  exists s, 1%Z, "s"%char.
  split; [simpl; auto|]. split; [lia|]. split; [|reflexivity].
  intros u' l' Hin Hd. simpl in Hin.
  destruct Hin as [Hin | Hin];
    [inversion Hin; subst; exfalso; apply (Hdiv 86400%Z); auto; lia|].
  destruct Hin as [Hin | Hin];
    [inversion Hin; subst; exfalso; apply (Hdiv 3600%Z); auto; lia|].
  destruct Hin as [Hin | Hin];
    [inversion Hin; subst; exfalso; apply (Hdiv 60%Z); auto; lia|].
  destruct Hin as [Hin | Hin]; [inversion Hin; lia | contradiction].
Qed.

(** C6.  With [s] the whole-second count of the duration, which is
    [int(delta.total_seconds())]: when [0 < s] the formatter returns the
    quotient of [s] by the largest of the units 86400 (d), 3600 (h),
    60 (m), 1 (s) that divides [s], followed by that unit's letter; when
    [s <= 0] it dies with the message "duration must be > 0 seconds".
    For a duration without microseconds [s] is its number of seconds,
    [days * 86400 + seconds].  86400 s gives 1d, 3600 s gives 1h, 60 s
    gives 1m, 5415 s gives 5415s.  ([total_seconds] is a float: one
    microsecond below 198842 days it is 198842 days, and the formatter
    answers 198842d.) *)
Theorem format_systemd_duration_spec (delta : timedelta) :
  ((0 < whole_seconds delta)%Z ->
   exists q u letter,
     In (u, letter) systemd_units /\
     whole_seconds delta = (q * u)%Z /\
     (forall u' letter', In (u', letter') systemd_units ->
        (u' | whole_seconds delta)%Z -> (u' <= u)%Z) /\
     format_systemd_duration delta = Ok (str_of_Z q ++ [letter])) /\
  ((whole_seconds delta <= 0)%Z ->
   format_systemd_duration delta =
   Raise (SystemExit [Lit "error: "; Lit "duration must be > 0 seconds"])) /\
  (microseconds delta = 0%Z ->
   (Z.abs (days delta * 86400 + seconds delta) < 2 ^ 53)%Z ->
   whole_seconds delta = (days delta * 86400 + seconds delta)%Z) /\
  format_systemd_duration (mk_timedelta 1 0 0) = Ok (lit "1d") /\
  format_systemd_duration (mk_timedelta 0 3600 0) = Ok (lit "1h") /\
  format_systemd_duration (mk_timedelta 0 60 0) = Ok (lit "1m") /\
  format_systemd_duration (mk_timedelta 0 5415 0) = Ok (lit "5415s") /\
  whole_seconds (mk_timedelta 198841 86399 999999) = 17179948800%Z /\
  format_systemd_duration (mk_timedelta 198841 86399 999999) = Ok (lit "198842d").
Proof.
  split; [apply format_positive|].
  split; [apply format_non_positive|].
  split; [apply whole_seconds_integral|].
  repeat split; reflexivity.
Qed.

Lemma format_systemd_duration_spec_witness :
  (exists q u letter,
     In (u, letter) systemd_units /\
     whole_seconds (mk_timedelta 0 5400 0) = (q * u)%Z /\
     (forall u' letter', In (u', letter') systemd_units ->
        (u' | whole_seconds (mk_timedelta 0 5400 0))%Z -> (u' <= u)%Z) /\
     format_systemd_duration (mk_timedelta 0 5400 0) = Ok (str_of_Z q ++ [letter])) /\
  format_systemd_duration (mk_timedelta 0 0 0) =
  Raise (SystemExit [Lit "error: "; Lit "duration must be > 0 seconds"]) /\
  whole_seconds (mk_timedelta (-1) 86340 0) = (-60)%Z.
Proof.
  split; [|split].
  - apply (proj1 (format_systemd_duration_spec (mk_timedelta 0 5400 0))).
    vm_compute. reflexivity.
  - apply (proj1 (proj2 (format_systemd_duration_spec (mk_timedelta 0 0 0)))).
    vm_compute. discriminate.
  - apply (proj1 (proj2 (proj2 (format_systemd_duration_spec (mk_timedelta (-1) 86340 0)))));
      [reflexivity | vm_compute; reflexivity].
Defined.

(** ** The formatter behind the parser *)

(** C9.  A duration returned by [parse_duration] has a whole-second
    count of at least one, so [format_systemd_duration] returns a string
    on it and its non-positive branch is not taken; given a duration of
    zero seconds or less, the formatter still dies with the non-positive
    message. *)
Theorem non_positive_branch_unreachable :
  (forall text d, parse_duration text = Ok d ->
     (1 <= whole_seconds d)%Z /\
     format_systemd_duration d <> die msg_non_positive /\
     exists s, format_systemd_duration d = Ok s) /\
  (forall d, (whole_seconds d <= 0)%Z ->
     format_systemd_duration d = die msg_non_positive).
Proof.
  split; [|exact format_non_positive].
  intros text d E. apply parse_duration_ok_iff in E.
  destruct E as (ds & u & _ & Hu & _ & _ & Hpos & Hmax & ->).
  pose proof (unit_seconds_pos u Hu) as Hus.
  assert (Hs : (1 <= whole_seconds (span_delta (decimal_value ds * unit_seconds u)))%Z).
  { rewrite whole_seconds_span; [nia|]. pose proof max_span_small. nia. }
  split; [exact Hs|].
  assert (Hp : (0 < whole_seconds (span_delta (decimal_value ds * unit_seconds u)))%Z) by lia.
  destruct (format_positive _ Hp) as (q & k & l & _ & _ & _ & Hf).
  split; [rewrite Hf; discriminate | eexists; exact Hf].
Qed.

Lemma non_positive_branch_unreachable_witness :
  ((1 <= whole_seconds (mk_timedelta 0 1800 0))%Z /\
   format_systemd_duration (mk_timedelta 0 1800 0) <> die msg_non_positive /\
   exists s, format_systemd_duration (mk_timedelta 0 1800 0) = Ok s) /\
  format_systemd_duration (mk_timedelta (-1) 0 0) = die msg_non_positive.
Proof.
  split.
  - apply (proj1 non_positive_branch_unreachable "30m"). reflexivity.
  - apply (proj2 non_positive_branch_unreachable). vm_compute. discriminate.
Defined.

(** ** Exceptions that leave [parse_duration] *)

(** Every exit of [parse_duration] is a duration, a [die], or one of the
    two exceptions raised by the conversions it calls. *)
Lemma parse_duration_exits (text : str) :
  (exists d, parse_duration text = Ok d) \/
  (exists msg, parse_duration text = Raise (SystemExit (Lit "error: " :: msg))) \/
  parse_duration text = Raise ValueError \/
  parse_duration text = Raise OverflowError.
Proof.
  destruct (parse_duration_outcome text); unfold die; eauto.
Qed.

(** C10 fails on the code.  The superscript two is a digit for
    [str.isdigit] and not for [int]: the guard lets the magnitude through
    and the conversion raises [ValueError].  A magnitude of more than
    999999999 days makes the [timedelta] constructor raise
    [OverflowError] before the 365-day check.  Neither goes through
    [die]. *)
Theorem parse_duration_escapes :
  isdigit [ascii_of_N 178] = true /\
  int_of_digits [ascii_of_N 178] = None /\
  parse_duration [ascii_of_N 178; "m"%char] = Raise ValueError /\
  parse_duration "9999999999d" = Raise OverflowError /\
  parse_duration "99999999999999s" = Raise OverflowError.
Proof. repeat split; reflexivity. Qed.

(** ** [parse_when]: the classification *)

Lemma separator_is_not_digit (ch : ascii) :
  contains [ch] (lit "-/") = true -> isdigit_char ch = false.
Proof.
  simpl. rewrite !andb_true_r, orb_false_r. intros H.
  apply orb_prop in H. destruct H as [H | H];
    apply Ascii.eqb_eq in H; subst; reflexivity.
Qed.

(** The generator of the first conjunct keeps the characters that are
    [-] or [/] and asks whether one of them is a digit: none is. *)
Lemma separator_digits_vacuous (tok : str) :
  existsb isdigit_char (filter (fun ch => contains [ch] (lit "-/")) tok) = false.
Proof.
  induction tok as [|c tok IH]; [reflexivity|].
  cbn [filter]. destruct (contains [c] (lit "-/")) eqn:Hc; [|exact IH].
  cbn [existsb]. rewrite (separator_is_not_digit c Hc). exact IH.
Qed.

Lemma lstrip_head (s : str) (c : ascii) (r : str) :
  lstrip s = c :: r -> isspace c = false.
Proof.
  induction s as [|a s IH]; simpl; [discriminate|].
  destruct (isspace a) eqn:Ha; [exact IH|].
  intros E. injection E as <- _. exact Ha.
Qed.

Lemma lstrip_suffix (x : str) : exists p, x = p ++ lstrip x.
Proof.
  induction x as [|h x [p IH]]; simpl.
  - exists []. reflexivity.
  - destruct (isspace h).
    + exists (h :: p). simpl. rewrite <- IH. reflexivity.
    + exists []. reflexivity.
Qed.

Lemma strip_head (text : str) (c : ascii) (r : str) :
  strip text = c :: r -> isspace c = false.
Proof.
  unfold strip, rstrip. intros E.
  destruct (lstrip text) as [|a s'] eqn:Es.
  { simpl in E. discriminate E. }
  assert (Ha : isspace a = false) by (eapply lstrip_head; exact Es).
  destruct (lstrip_suffix (rev (a :: s'))) as [p Hp].
  apply (f_equal (@rev ascii)) in Hp.
  rewrite rev_involutive, rev_app_distr, E in Hp.
  simpl in Hp. injection Hp as -> _. exact Ha.
Qed.

Lemma split_from_nonempty (cur s : str) :
  cur <> [] -> split_from cur s <> [].
Proof.
  revert cur. induction s as [|c s IH]; intros cur Hcur; simpl.
  - destruct cur; [contradiction | discriminate].
  - destruct (isspace c).
    + destruct cur; [contradiction | discriminate].
    + apply IH. discriminate.
Qed.

(** A trimmed, non-empty text has a first token: [raw.split()[0]] does
    not raise. *)
Lemma first_token_exists (text : str) :
  strip text <> [] -> exists tok, first_item (split (strip text)) = Ok tok.
Proof.
  intros Hne. destruct (strip text) as [|c r] eqn:E; [contradiction|].
  pose proof (strip_head text c r E) as Hc.
  unfold split. simpl. rewrite Hc.
  pose proof (split_from_nonempty [c] r ltac:(discriminate)) as Hs.
  destruct (split_from [c] r) as [|tok l]; [contradiction|].
  exists tok. reflexivity.
Qed.

Lemma looks_time_only_eq (raw tok : str) :
  first_item (split raw) = Ok tok ->
  looks_time_only raw =
  Ok (contains (lit ":") raw
      || contains (lit "am") (lower raw)
      || contains (lit "pm") (lower raw)
      || isdigit (strip raw)).
Proof.
  intros E. unfold looks_time_only. rewrite E. simpl bind.
  rewrite separator_digits_vacuous. reflexivity.
Qed.

(** C2 fails on the code.  The first conjunct of the heuristic is true on
    every token, so the classification is decided by the second conjunct
    alone: "2026-01-16 15:00", whose first token has digits next to [-],
    is classified time-only, and with the clock at 2026-01-15 10:00 the
    reminder asked for the 16th is returned for the 15th. *)
Theorem looks_time_only_ignores_date_separators :
  (forall tok,
     existsb isdigit_char (filter (fun ch => contains [ch] (lit "-/")) tok) = false) /\
  looks_time_only "2026-01-16 15:00" = Ok true /\
  spec_time_only "2026-01-16 15:00" = false /\
  parse_when (fun _ _ => inl (Naive (mk_datetime 2026 1 16 15 0 0 0)))
    (mk_datetime 2026 1 15 10 0 0 0) "2026-01-16 15:00"
  = Ok (mk_datetime 2026 1 15 15 0 0 0).
Proof.
  split; [exact separator_digits_vacuous|]. repeat split; reflexivity.
Qed.

(** ** [parse_when]: errors *)

(** [candidate + timedelta(days=1)]. *)
Lemma add_one_day (d : datetime) :
  (delta <- timedelta_new 1 0 0 0 ;; datetime_add_days d delta) = next_day d.
Proof.
  change (timedelta_new 1 0 0 0) with (Ok (mk_timedelta 1 0 0)).
  unfold bind at 1. unfold datetime_add_days.
  change (Z.to_nat (days (mk_timedelta 1 0 0))) with 1%nat.
  cbn [add_days]. destruct (next_day d); reflexivity.
Qed.

Lemma parse_when_nonblank (dtparse : str -> datetime -> parsed + str)
    (now : datetime) (text : str) :
  strip text <> [] ->
  parse_when dtparse now text =
  match dtparse (strip text) (replace_microsecond now 0) with
  | inr e => die (msg_could_not_parse (strip text) e)
  | inl p =>
      let dt := replace_microsecond (wall_clock p) 0 in
      time_only <- looks_time_only (strip text) ;;
      if time_only : bool then
        let candidate := replace_time now (hour dt) (minute dt) (second dt) 0 in
        if datetime_le candidate now then next_day candidate else Ok candidate
      else
        match p with
        | Aware _ _ => Raise TypeError
        | Naive _ => if datetime_le dt now then die (msg_not_future dt) else Ok dt
        end
  end.
Proof.
  intros Hne. unfold parse_when.
  destruct (strip text) as [|c r] eqn:E; [contradiction|].
  destruct (dtparse (c :: r) (replace_microsecond now 0)) as [p | e];
    [|reflexivity].
  cbv zeta. destruct (looks_time_only (c :: r)) as [[|] | e]; try reflexivity.
  unfold bind at 1 3. rewrite add_one_day. reflexivity.
Qed.

(** C3.  Blank input dies with "empty time"; a failure of the free-form
    parser dies with "could not parse time", the repr of the trimmed
    text and the parser's own text; an input classified as carrying a
    date whose parsed instant (sub-second dropped) is a naive datetime
    not after the current moment dies with "requested time is not in the
    future" and the instant formatted as YYYY-MM-DD HH:MM.  C3 fails on
    the code when the parsed instant carries a time zone: the comparison
    with the current moment raises TypeError, whether the instant is
    past or not, and no message is printed.  (A past date written with a
    time of day is not in the class of the claim: it is classified
    time-only, and "2020-01-01 12:00" read at 10:00 on 2026-01-15 is
    returned as 12:00 of that day.) *)
Theorem parse_when_errors (dtparse : str -> datetime -> parsed + str)
    (now : datetime) (text : str) :
  (strip text = [] ->
   parse_when dtparse now text =
   Raise (SystemExit [Lit "error: "; Lit "empty time"])) /\
  (forall e,
     strip text <> [] ->
     dtparse (strip text) (replace_microsecond now 0) = inr e ->
     parse_when dtparse now text =
     Raise (SystemExit
              [Lit "error: "; Lit "could not parse time "; Repr (strip text);
               Lit ": "; Lit e])) /\
  (forall dt,
     strip text <> [] ->
     dtparse (strip text) (replace_microsecond now 0) = inl (Naive dt) ->
     looks_time_only (strip text) = Ok false ->
     datetime_le (replace_microsecond dt 0) now = true ->
     parse_when dtparse now text =
     Raise (SystemExit
              [Lit "error: "; Lit "requested time is not in the future: ";
               Lit (isoformat_minutes (replace_microsecond dt 0))])) /\
  (forall dt utcoffset,
     strip text <> [] ->
     dtparse (strip text) (replace_microsecond now 0) = inl (Aware dt utcoffset) ->
     looks_time_only (strip text) = Ok false ->
     parse_when dtparse now text = Raise TypeError) /\
  parse_when (fun _ _ => inl (Naive (mk_datetime 2020 1 1 12 0 0 0)))
    (mk_datetime 2026 1 15 10 0 0 0) "2020-01-01 12:00"
  = Ok (mk_datetime 2026 1 15 12 0 0 0).
Proof.
  split; [|split; [|split; [|split; [|reflexivity]]]].
  - intros E. unfold parse_when. rewrite E. reflexivity.
  - intros e Hne Hp. rewrite parse_when_nonblank by assumption.
    rewrite Hp. reflexivity.
  - intros dt Hne Hp Hl Hle. rewrite parse_when_nonblank by assumption.
    rewrite Hp. cbv zeta. rewrite Hl. simpl bind.
    cbn [wall_clock]. rewrite Hle. reflexivity.
  - intros dt off Hne Hp Hl. rewrite parse_when_nonblank by assumption.
    rewrite Hp. cbv zeta. rewrite Hl. reflexivity.
Qed.

(** The tested errors, and a past date given with its time zone. *)
Lemma parse_when_errors_witness :
  parse_when example_parser (mk_datetime 2026 1 15 10 0 0 0) "   "
  = Raise (SystemExit [Lit "error: "; Lit "empty time"]) /\
  parse_when example_parser (mk_datetime 2026 1 15 10 0 0 0) "asdfasdf"
  = Raise (SystemExit
             [Lit "error: "; Lit "could not parse time "; Repr "asdfasdf";
              Lit ": "; Lit "Unknown string format: asdfasdf"]) /\
  parse_when example_parser (mk_datetime 2026 1 15 10 0 0 0) "2020-01-01"
  = Raise (SystemExit
             [Lit "error: "; Lit "requested time is not in the future: ";
              Lit "2020-01-01 10:00"]) /\
  parse_when example_parser (mk_datetime 2026 1 15 10 0 0 0) "20200116T150000Z"
  = Raise TypeError.
Proof.
  split; [|split; [|split]].
  - apply (proj1 (parse_when_errors example_parser
                    (mk_datetime 2026 1 15 10 0 0 0) "   ")).
    reflexivity.
  - apply (proj1 (proj2 (parse_when_errors example_parser
                    (mk_datetime 2026 1 15 10 0 0 0) "asdfasdf"))
             (lit "Unknown string format: asdfasdf"));
      [vm_compute; discriminate | reflexivity].
  - apply (proj1 (proj2 (proj2 (parse_when_errors example_parser
                    (mk_datetime 2026 1 15 10 0 0 0) "2020-01-01")))
             (mk_datetime 2020 1 1 10 0 0 0));
      [vm_compute; discriminate | reflexivity | reflexivity | reflexivity].
  - apply (proj1 (proj2 (proj2 (proj2 (parse_when_errors example_parser
                    (mk_datetime 2026 1 15 10 0 0 0) "20200116T150000Z"))))
             (mk_datetime 2020 1 16 15 0 0 0) 0%Z);
      [vm_compute; discriminate | reflexivity | reflexivity].
Defined.

(** ** [parse_when]: a bare time of day *)

Ltac compare_fields :=
  unfold datetime_lt, datetime_le, datetime_cmp, datetime_fields;
  cbn [lex_compare year month day hour minute second microsecond];
  repeat match goal with
  | |- context [(?x ?= ?y)%Z] => destruct (Z.compare_spec x y)
  end;
  try reflexivity; try discriminate; try lia.

Lemma datetime_le_lt (a b : datetime) :
  datetime_le a b = negb (datetime_lt b a).
Proof.
  destruct a, b. compare_fields.
Qed.

(** The day after a moment of today's date is after now. *)
Lemma next_day_after (now : datetime) (h mi s us : Z) (r : datetime) :
  next_day (replace_time now h mi s us) = Ok r ->
  datetime_lt now r = true /\
  hour r = h /\ minute r = mi /\ second r = s /\ microsecond r = us.
Proof.
  destruct now as [y mo d h0 mi0 s0 us0].
  unfold next_day, replace_time.
  cbn [year month day hour minute second microsecond].
  destruct (Z.ltb_spec d (days_in_month y mo));
    [|destruct (Z.ltb_spec mo 12); [|destruct (Z.ltb_spec y MAXYEAR)]];
    intros E; try discriminate E; injection E as <-;
    (split; [compare_fields | repeat split; reflexivity]).
Qed.

Lemma next_day_defined (d : datetime) :
  (year d < MAXYEAR)%Z -> exists r, next_day d = Ok r.
Proof.
  intros Hy. unfold next_day.
  destruct (day d <? days_in_month (year d) (month d))%Z; [eexists; reflexivity|].
  destruct (month d <? 12)%Z; [eexists; reflexivity|].
  destruct (Z.ltb_spec (year d) MAXYEAR); [eexists; reflexivity | lia].
Qed.

(** Every date but the last one has a next day. *)
Lemma next_day_before_last (d : datetime) :
  (year d <= MAXYEAR)%Z -> (month d <= 12)%Z ->
  (day d <= days_in_month (year d) (month d))%Z ->
  is_last_date d = false -> exists r, next_day d = Ok r.
Proof.
  intros Hy Hm Hd Hlast. unfold next_day.
  destruct (Z.ltb_spec (day d) (days_in_month (year d) (month d))) as [|Hday];
    [eexists; reflexivity|].
  destruct (Z.ltb_spec (month d) 12) as [|Hmonth]; [eexists; reflexivity|].
  destruct (Z.ltb_spec (year d) MAXYEAR) as [|Hyear]; [eexists; reflexivity|].
  exfalso. unfold is_last_date in Hlast.
  assert (Em : month d = 12%Z) by lia. rewrite Em in *.
  change (days_in_month (year d) 12) with 31%Z in *.
  replace (year d) with MAXYEAR in Hlast by lia.
  replace (day d) with 31%Z in Hlast by lia.
  discriminate Hlast.
Qed.

Lemma next_day_of_last (d : datetime) :
  is_last_date d = true -> next_day d = Raise OverflowError.
Proof.
  unfold is_last_date. intros H.
  apply andb_prop in H. destruct H as [H Hd].
  apply andb_prop in H. destruct H as [Hy Hm].
  apply Z.eqb_eq in Hy, Hm, Hd. unfold next_day. rewrite Hy, Hm, Hd.
  reflexivity.
Qed.

Lemma parse_when_time_only_general
    (dtparse : str -> datetime -> parsed + str)
    (now : datetime) (text : str) (p : parsed) :
  strip text <> [] ->
  dtparse (strip text) (replace_microsecond now 0) = inl p ->
  looks_time_only (strip text) = Ok true ->
  let dt := wall_clock p in
  let candidate := replace_time now (hour dt) (minute dt) (second dt) 0 in
  parse_when dtparse now text =
  if datetime_lt now candidate then Ok candidate else next_day candidate.
Proof.
  intros Hne Hp Hl dt candidate.
  rewrite parse_when_nonblank by assumption.
  rewrite Hp. cbv zeta. rewrite Hl. simpl bind.
  cbn [hour minute second replace_microsecond]. fold dt. fold candidate.
  rewrite datetime_le_lt.
  destruct (datetime_lt now candidate); reflexivity.
Qed.

(** C5 as stated fails on the last day a datetime can hold: at 16:00 on
    9999-12-31 the candidate 15:00 is past, the day after it does not
    exist, and [parse_when] raises OverflowError where the claim has it
    return an instant in the future. *)
Lemma parse_when_last_day_counterexample :
  ~ (forall (dtparse : str -> datetime -> parsed + str)
            (now : datetime) (text : str) (p : parsed),
       valid_datetime now ->
       strip text <> [] ->
       dtparse (strip text) (replace_microsecond now 0) = inl p ->
       looks_time_only (strip text) = Ok true ->
       exists r,
         parse_when dtparse now text = Ok r /\ datetime_lt now r = true).
Proof.
  intros H.
  destruct (H example_parser (mk_datetime 9999 12 31 16 0 0 0) (lit "15:00")
              (Naive (mk_datetime 9999 12 31 15 0 0 0))) as (r & Hr & _).
  - unfold valid_datetime, MAXYEAR. cbn. lia.
  - vm_compute. discriminate.
  - reflexivity.
  - reflexivity.
  - vm_compute in Hr. discriminate Hr.
Qed.

(** C5, amended.  On an input classified time-only, the candidate is the
    current date with the parsed hour, minute and second and no
    sub-second part.  When the candidate is after the current moment
    [parse_when] returns it.  Otherwise one day is added: on every date
    but 9999-12-31 [parse_when] returns the same time on the next
    calendar day, which is strictly after the current moment; on
    9999-12-31 the addition raises OverflowError.  With a parser that
    reads "15:00" as 15:00 on the default's date, the clock at 10:00 on
    2026-01-15 gives 2026-01-15 15:00 and the clock at 16:00 gives
    2026-01-16 15:00. *)
Theorem parse_when_time_only :
  (forall (dtparse : str -> datetime -> parsed + str)
          (now : datetime) (text : str) (p : parsed),
     valid_datetime now ->
     strip text <> [] ->
     dtparse (strip text) (replace_microsecond now 0) = inl p ->
     looks_time_only (strip text) = Ok true ->
     let dt := wall_clock p in
     let candidate := replace_time now (hour dt) (minute dt) (second dt) 0 in
     (datetime_lt now candidate = true ->
      parse_when dtparse now text = Ok candidate) /\
     (datetime_lt now candidate = false -> is_last_date now = false ->
      exists r,
        parse_when dtparse now text = Ok r /\
        next_day candidate = Ok r /\
        datetime_lt now r = true /\
        hour r = hour dt /\ minute r = minute dt /\ second r = second dt /\
        microsecond r = 0%Z) /\
     (datetime_lt now candidate = false -> is_last_date now = true ->
      parse_when dtparse now text = Raise OverflowError)) /\
  (forall dtparse : str -> datetime -> parsed + str,
     (forall default,
        dtparse (lit "15:00") default =
        inl (Naive (replace_time default 15 0 (second default)
                      (microsecond default)))) ->
     parse_when dtparse (mk_datetime 2026 1 15 10 0 0 0) "15:00"
     = Ok (mk_datetime 2026 1 15 15 0 0 0) /\
     parse_when dtparse (mk_datetime 2026 1 15 16 0 0 0) "15:00"
     = Ok (mk_datetime 2026 1 16 15 0 0 0)).
Proof.
  split.
  - intros dtparse now text p Hv Hne Hp Hl dt candidate.
    pose proof (parse_when_time_only_general dtparse now text p Hne Hp Hl) as E.
    cbv zeta in E. fold dt in E. fold candidate in E.
    split; [|split].
    + intros Hc. rewrite E, Hc. reflexivity.
    + intros Hc Hlast. rewrite E, Hc.
      destruct (next_day_before_last candidate) as [r Hr];
        try (destruct Hv as (Hy & Hm & Hd & _); unfold candidate;
             cbn [replace_time year month day]; lia).
      * exact Hlast.
      * exists r. rewrite Hr.
        destruct (next_day_after now _ _ _ _ r Hr) as (H1 & H2 & H3 & H4 & H5).
        repeat split; assumption.
    + intros Hc Hlast. rewrite E, Hc. apply next_day_of_last. exact Hlast.
  - intros dtparse Hparse. split.
    + rewrite parse_when_nonblank by (vm_compute; discriminate).
      change (strip (lit "15:00")) with (lit "15:00"). rewrite Hparse. reflexivity.
    + rewrite parse_when_nonblank by (vm_compute; discriminate).
      change (strip (lit "15:00")) with (lit "15:00"). rewrite Hparse. reflexivity.
Qed.

Lemma parse_when_time_only_witness :
  (exists r,
     parse_when example_parser (mk_datetime 2026 12 31 23 59 59 5) "3:00 pm" = Ok r /\
     next_day (mk_datetime 2026 12 31 15 0 59 0) = Ok r /\
     datetime_lt (mk_datetime 2026 12 31 23 59 59 5) r = true /\
     hour r = 15%Z /\ minute r = 0%Z /\ second r = 59%Z /\ microsecond r = 0%Z) /\
  parse_when example_parser (mk_datetime 9999 12 31 16 0 0 0) "15:00"
  = Raise OverflowError /\
  parse_when example_parser (mk_datetime 2026 1 15 10 0 0 0) "15:00"
  = Ok (mk_datetime 2026 1 15 15 0 0 0) /\
  parse_when example_parser (mk_datetime 2026 1 15 16 0 0 0) "15:00"
  = Ok (mk_datetime 2026 1 16 15 0 0 0).
Proof.
  split; [|split].
  - apply (proj1 (proj2 (proj1 parse_when_time_only example_parser
             (mk_datetime 2026 12 31 23 59 59 5) (lit "3:00 pm")
             (Naive (mk_datetime 2026 12 31 15 0 59 0))
             ltac:(unfold valid_datetime, MAXYEAR; cbn; lia)
             ltac:(vm_compute; discriminate) eq_refl eq_refl)));
      reflexivity.
  - apply (proj2 (proj2 (proj1 parse_when_time_only example_parser
             (mk_datetime 9999 12 31 16 0 0 0) (lit "15:00")
             (Naive (mk_datetime 9999 12 31 15 0 0 0))
             ltac:(unfold valid_datetime, MAXYEAR; cbn; lia)
             ltac:(vm_compute; discriminate) eq_refl eq_refl)));
      reflexivity.
  - apply (proj2 parse_when_time_only example_parser). reflexivity.
Defined.

(** ** [unit_name] *)

Lemma decimal_value_zeros (k : nat) (s : str) :
  decimal_value (repeat "0"%char k ++ s) = decimal_value s.
Proof.
  unfold decimal_value. rewrite fold_left_app.
  replace (fold_left (fun acc c => (10 * acc + digit_value c)%Z)
             (repeat "0"%char k) 0%Z) with 0%Z; [reflexivity|].
  induction k as [|k IH]; [reflexivity|]. simpl. exact IH.
Qed.

Lemma format_0d_value (w : nat) (n : Z) :
  (0 <= n)%Z -> decimal_value (format_0d w n) = n.
Proof.
  intros Hn. unfold format_0d, zfill. rewrite decimal_value_zeros.
  apply str_of_Z_spec. exact Hn.
Qed.

Lemma format_0d_width (k : nat) (n : Z) :
  (0 <= n < 10 ^ Z.of_nat (S k))%Z ->
  digits_of_width (S k) n (format_0d (S k) n).
Proof.
  intros Hn. unfold digits_of_width. split; [|split].
  - unfold format_0d, zfill. rewrite length_app, repeat_length.
    pose proof (str_of_fuel_length (S (Z.to_nat (Z.log2 n))) k n Hn) as Hl.
    unfold str_of_Z. lia.
  - unfold format_0d, zfill. rewrite forallb_app.
    destruct (str_of_Z_spec n ltac:(lia)) as [Hdec _].
    apply isdecimal_forallb in Hdec. destruct Hdec as [_ Hall]. rewrite Hall.
    rewrite andb_true_r. apply forallb_forall. intros c Hc.
    apply repeat_spec in Hc. subst. reflexivity.
  - apply format_0d_value. lia.
Qed.

Lemma format_0d_inj (w : nat) (a b : Z) :
  (0 <= a)%Z -> (0 <= b)%Z -> format_0d w a = format_0d w b -> a = b.
Proof.
  intros Ha Hb E. apply (f_equal decimal_value) in E.
  rewrite !format_0d_value in E by assumption. exact E.
Qed.

(** [%Y] on a year of four digits is the year on four digits. *)
Lemma strftime_Y_four_digits (y : Z) :
  (1000 <= y <= 9999)%Z -> strftime_Y y = format_0d 4 y.
Proof.
  intros Hy. unfold strftime_Y, format_0d, zfill.
  rewrite (str_of_Z_four_digits y Hy). reflexivity.
Qed.

Lemma strftime_Y_value (y : Z) :
  (0 <= y)%Z ->
  forallb isdecimal_char (strftime_Y y) = true /\
  decimal_value (strftime_Y y) = y.
Proof.
  intros Hy. unfold strftime_Y.
  destruct (str_of_Z_spec y Hy) as [Hdec Hval].
  apply isdecimal_forallb in Hdec. tauto.
Qed.

Lemma days_in_month_le (y m : Z) : (days_in_month y m <= 31)%Z.
Proof.
  unfold days_in_month.
  destruct (m =? 2)%Z; [destruct (is_leap y); lia|].
  destruct ((m =? 4) || (m =? 6) || (m =? 9) || (m =? 11))%Z; lia.
Qed.

(** The job name of every datetime: the year as [%Y] prints it, then
    fields of fixed width. *)
Lemma unit_name_fields (prefix : str) (when : datetime) :
  valid_datetime when ->
  exists mo d h mi s us,
    unit_name prefix when =
      prefix ++ lit "-" ++ (strftime_Y (year when) ++ mo ++ d) ++ lit "-"
      ++ (h ++ mi ++ s) ++ lit "-" ++ us /\
    digits_of_width 2 (month when) mo /\
    digits_of_width 2 (day when) d /\
    digits_of_width 2 (hour when) h /\
    digits_of_width 2 (minute when) mi /\
    digits_of_width 2 (second when) s /\
    digits_of_width 6 (microsecond when) us.
Proof.
  intros (Hy & Hmo & Hd & Hh & Hmi & Hs & Hus).
  pose proof (days_in_month_le (year when) (month when)) as Hdim.
  exists (format_0d 2 (month when)),
    (format_0d 2 (day when)), (format_0d 2 (hour when)),
    (format_0d 2 (minute when)), (format_0d 2 (second when)),
    (format_0d 6 (microsecond when)).
  split.
  { unfold unit_name, strftime_stamp. cbv zeta.
    repeat rewrite <- app_assoc. reflexivity. }
  repeat split; try (apply format_0d_width; simpl; lia);
    try (apply format_0d_value; lia).
Qed.

Lemma unit_name_shape (prefix : str) (when : datetime) :
  valid_datetime when -> (1000 <= year when)%Z ->
  exists y mo d h mi s us,
    unit_name prefix when =
      prefix ++ lit "-" ++ (y ++ mo ++ d) ++ lit "-" ++ (h ++ mi ++ s)
      ++ lit "-" ++ us /\
    digits_of_width 4 (year when) y /\
    digits_of_width 2 (month when) mo /\
    digits_of_width 2 (day when) d /\
    digits_of_width 2 (hour when) h /\
    digits_of_width 2 (minute when) mi /\
    digits_of_width 2 (second when) s /\
    digits_of_width 6 (microsecond when) us.
Proof.
  intros Hv Hy4.
  destruct (unit_name_fields prefix when Hv) as (mo & d & h & mi & s & us & E & H).
  destruct Hv as (Hy & _). unfold MAXYEAR in Hy.
  exists (strftime_Y (year when)), mo, d, h, mi, s, us.
  split; [exact E|]. split; [|exact H].
  rewrite strftime_Y_four_digits by lia.
  apply (format_0d_width 3). simpl. lia.
Qed.

(** Before year 1000 the year takes fewer than four characters. *)
Lemma unit_name_short_year (prefix : str) (when : datetime) :
  valid_datetime when -> (year when < 1000)%Z ->
  exists y mo d h mi s us,
    unit_name prefix when =
      prefix ++ lit "-" ++ (y ++ mo ++ d) ++ lit "-" ++ (h ++ mi ++ s)
      ++ lit "-" ++ us /\
    (length y < 4)%nat /\
    forallb isdecimal_char y = true /\ decimal_value y = year when /\
    digits_of_width 2 (month when) mo /\
    digits_of_width 2 (day when) d /\
    digits_of_width 2 (hour when) h /\
    digits_of_width 2 (minute when) mi /\
    digits_of_width 2 (second when) s /\
    digits_of_width 6 (microsecond when) us.
Proof.
  intros Hv Hy3.
  destruct (unit_name_fields prefix when Hv) as (mo & d & h & mi & s & us & E & H).
  destruct Hv as (Hy & _).
  exists (strftime_Y (year when)), mo, d, h, mi, s, us.
  split; [exact E|].
  split.
  { pose proof (str_of_Z_length 2 (year when)) as Hl.
    unfold strftime_Y. simpl in Hl. lia. }
  destruct (strftime_Y_value (year when)) as [H1 H2]; [lia|].
  split; [exact H1|]. split; [exact H2 | exact H].
Qed.

Lemma unit_name_microsecond_inj (prefix : str) (when : datetime) (us1 us2 : Z) :
  (0 <= us1 < 1000000)%Z -> (0 <= us2 < 1000000)%Z -> us1 <> us2 ->
  unit_name prefix (replace_microsecond when us1)
  <> unit_name prefix (replace_microsecond when us2).
Proof.
  intros H1 H2 Hne E. apply Hne. unfold unit_name in E. cbv zeta in E.
  change (strftime_stamp (replace_microsecond when us1))
    with (strftime_stamp when) in E.
  change (strftime_stamp (replace_microsecond when us2))
    with (strftime_stamp when) in E.
  cbn [microsecond replace_microsecond] in E.
  repeat apply app_inv_head in E.
  apply (format_0d_inj 6); [lia | lia | exact E].
Qed.

(** C8 as stated fails before year 1000: [%Y] does not fill the year
    with zeros, so the name of 0999-01-02 03:04:05.000006 is
    remindme-9990102-030405-000006, one character short of
    <prefix>-YYYYMMDD-HHMMSS-NNNNNN. *)
Lemma unit_name_year_999_counterexample :
  ~ (forall prefix when,
       valid_datetime when ->
       exists y mo d h mi s us,
         unit_name prefix when =
           prefix ++ lit "-" ++ (y ++ mo ++ d) ++ lit "-" ++ (h ++ mi ++ s)
           ++ lit "-" ++ us /\
         digits_of_width 4 (year when) y /\
         digits_of_width 2 (month when) mo /\
         digits_of_width 2 (day when) d /\
         digits_of_width 2 (hour when) h /\
         digits_of_width 2 (minute when) mi /\
         digits_of_width 2 (second when) s /\
         digits_of_width 6 (microsecond when) us).
Proof.
  intros H.
  destruct (H (lit "remindme") (mk_datetime 999 1 2 3 4 5 6))
    as (y & mo & d & h & mi & s & us & E &
        [Ly _] & [Lmo _] & [Ld _] & [Lh _] & [Lmi _] & [Ls _] & [Lus _]).
  { unfold valid_datetime, MAXYEAR. cbn. lia. }
  assert (Hname : unit_name (lit "remindme") (mk_datetime 999 1 2 3 4 5 6)
                  = lit "remindme-9990102-030405-000006") by reflexivity.
  rewrite Hname in E. apply (f_equal (@length ascii)) in E.
  rewrite !length_app, Ly, Lmo, Ld, Lh, Lmi, Ls, Lus in E.
  cbn in E. discriminate E.
Qed.

(** C8, amended.  For a prefix and a datetime of year 1000 or later, the
    job name is the prefix, a hyphen, the year on four digits, the month
    and the day on two, a hyphen, the hour, minute and second on two
    digits each, a hyphen, and the microsecond on six digits.  Before
    year 1000 the year is printed without leading zeros, on fewer than
    four digits, and the other fields are as above.  Two instants that
    differ in their microsecond only get different names, whatever the
    year.  The tested instant gives remindme-20260115-143045-123456. *)
Theorem unit_name_spec :
  (forall prefix when,
     valid_datetime when -> (1000 <= year when)%Z ->
     exists y mo d h mi s us,
       unit_name prefix when =
         prefix ++ lit "-" ++ (y ++ mo ++ d) ++ lit "-" ++ (h ++ mi ++ s)
         ++ lit "-" ++ us /\
       digits_of_width 4 (year when) y /\
       digits_of_width 2 (month when) mo /\
       digits_of_width 2 (day when) d /\
       digits_of_width 2 (hour when) h /\
       digits_of_width 2 (minute when) mi /\
       digits_of_width 2 (second when) s /\
       digits_of_width 6 (microsecond when) us) /\
  (forall prefix when,
     valid_datetime when -> (year when < 1000)%Z ->
     exists y mo d h mi s us,
       unit_name prefix when =
         prefix ++ lit "-" ++ (y ++ mo ++ d) ++ lit "-" ++ (h ++ mi ++ s)
         ++ lit "-" ++ us /\
       (length y < 4)%nat /\
       forallb isdecimal_char y = true /\ decimal_value y = year when /\
       digits_of_width 2 (month when) mo /\
       digits_of_width 2 (day when) d /\
       digits_of_width 2 (hour when) h /\
       digits_of_width 2 (minute when) mi /\
       digits_of_width 2 (second when) s /\
       digits_of_width 6 (microsecond when) us) /\
  (forall prefix when us1 us2,
     (0 <= us1 < 1000000)%Z -> (0 <= us2 < 1000000)%Z -> us1 <> us2 ->
     unit_name prefix (replace_microsecond when us1)
     <> unit_name prefix (replace_microsecond when us2)) /\
  unit_name "remindme" (mk_datetime 2026 1 15 14 30 45 123456)
  = lit "remindme-20260115-143045-123456" /\
  unit_name "remindme" (mk_datetime 999 1 2 3 4 5 6)
  = lit "remindme-9990102-030405-000006".
Proof.
  split; [exact unit_name_shape|]. split; [exact unit_name_short_year|].
  split; [exact unit_name_microsecond_inj|].
  split; reflexivity.
Qed.

Lemma unit_name_spec_witness :
  (exists y mo d h mi s us,
     unit_name "remindme" (mk_datetime 2026 1 15 14 30 45 0) =
       lit "remindme" ++ lit "-" ++ (y ++ mo ++ d) ++ lit "-" ++ (h ++ mi ++ s)
       ++ lit "-" ++ us /\
     digits_of_width 4 2026 y /\ digits_of_width 2 1 mo /\
     digits_of_width 2 15 d /\ digits_of_width 2 14 h /\
     digits_of_width 2 30 mi /\ digits_of_width 2 45 s /\
     digits_of_width 6 0 us) /\
  unit_name "remindme" (mk_datetime 2026 1 15 14 30 45 0)
  <> unit_name "remindme" (mk_datetime 2026 1 15 14 30 45 1) /\
  (exists y mo d h mi s us,
     unit_name "remindme" (mk_datetime 999 1 2 3 4 5 6) =
       lit "remindme" ++ lit "-" ++ (y ++ mo ++ d) ++ lit "-" ++ (h ++ mi ++ s)
       ++ lit "-" ++ us /\
     (length y < 4)%nat /\
     forallb isdecimal_char y = true /\ decimal_value y = 999%Z /\
     digits_of_width 2 1 mo /\ digits_of_width 2 2 d /\
     digits_of_width 2 3 h /\ digits_of_width 2 4 mi /\
     digits_of_width 2 5 s /\ digits_of_width 6 6 us).
Proof.
  split; [|split].
  - apply (proj1 unit_name_spec (lit "remindme") (mk_datetime 2026 1 15 14 30 45 0)).
    + unfold valid_datetime. vm_compute. repeat split; discriminate.
    + vm_compute. discriminate.
  - apply (proj1 (proj2 (proj2 unit_name_spec)) (lit "remindme")
             (mk_datetime 2026 1 15 14 30 45 0) 0%Z 1%Z); lia.
  - apply (proj1 (proj2 unit_name_spec) (lit "remindme")
             (mk_datetime 999 1 2 3 4 5 6)).
    + unfold valid_datetime. vm_compute. repeat split; discriminate.
    + vm_compute. reflexivity.
Defined.

(** ** The auto-select backend *)

Lemma select_systemd (which : str -> bool) :
  which (lit "systemd-run") = true ->
  _select_delegate which = (Ok SystemdBackend, [Which (lit "systemd-run")]).
Proof.
  intros H. unfold _select_delegate, BACKENDS. cbn in *. rewrite H. reflexivity.
Qed.

Lemma select_at (which : str -> bool) :
  which (lit "systemd-run") = false -> which (lit "at") = true ->
  _select_delegate which =
  (Ok AtBackend, [Which (lit "systemd-run"); Which (lit "at")]).
Proof.
  intros H1 H2. unfold _select_delegate, BACKENDS. cbn in *. rewrite H1, H2.
  reflexivity.
Qed.

Lemma select_none (which : str -> bool) :
  which (lit "systemd-run") = false -> which (lit "at") = false ->
  _select_delegate which =
  (die msg_no_backend, [Which (lit "systemd-run"); Which (lit "at")]).
Proof.
  intros H1 H2. unfold _select_delegate, BACKENDS. cbn in *. rewrite H1, H2.
  reflexivity.
Qed.

Lemma schedule_cached (which : str -> bool) (cls : backend_cls) (c : call) :
  auto_schedule which (mk_auto (Some cls)) c =
  mk_outcome (mk_auto (Some cls)) (Ok tt) [Forward cls c].
Proof. reflexivity. Qed.

(** Once a delegate is cached, a run forwards every call to it and looks
    nothing up, whatever the search path has become. *)
Lemma auto_run_cached (cls : backend_cls) (steps : list ((str -> bool) * call)) :
  auto_run (mk_auto (Some cls)) steps =
  (mk_auto (Some cls), map (fun step => Forward cls (snd step)) steps).
Proof.
  induction steps as [|[which c] rest IH]; [reflexivity|].
  cbn [auto_run]. rewrite schedule_cached. cbn [returned after events].
  rewrite IH. reflexivity.
Qed.

(** A run that starts with a fresh instance selects during its first
    call and never again. *)
Lemma auto_run_fresh (which : str -> bool) (c : call)
    (rest : list ((str -> bool) * call)) (cls : backend_cls) (tr : trace) :
  _select_delegate which = (Ok cls, tr) ->
  auto_run auto_new ((which, c) :: rest) =
  (mk_auto (Some cls),
   (tr ++ [Forward cls c]) ++ map (fun step => Forward cls (snd step)) rest).
Proof.
  intros E. cbn [auto_run]. unfold auto_schedule, delegate.
  cbn [_delegate auto_new]. rewrite E. cbn [returned after events].
  rewrite auto_run_cached. reflexivity.
Qed.

(** C7 as stated fails on [is_available]: with every executable present,
    a first use through [is_available] leaves the instance without a
    delegate although the scan would select systemd; with none present it
    returns false where the scheduling operations die. *)
Lemma auto_first_use_counterexample :
  ~ (forall (which : str -> bool) (u : auto_use),
       match fst (_select_delegate which) with
       | Ok cls => _delegate (after (auto_step which auto_new u)) = Some cls
       | Raise e => returned (auto_step which auto_new u) = Raise e
       end).
Proof.
  intros H. specialize (H (fun _ => true) UseIsAvailable).
  cbn in H. discriminate H.
Qed.

(** C7, amended.  On the first [schedule_in] or [schedule_at] of an
    instance, the registry is scanned in its order (systemd, then at; the
    entry auto is skipped) and the first available backend becomes the
    delegate: systemd when systemd-run is found, at when only at is
    found, and the call dies naming "systemd, at" when neither is.  The
    delegate is kept: every later scheduling call of the run is forwarded
    to it with no lookup, whatever the search path, so a run that starts
    with a fresh instance selects once, during its first call.
    [is_available] is a probe: it returns whether systemd-run or at is
    found, and leaves the instance as it was. *)
Theorem auto_backend_spec (which : str -> bool) :
  (which (lit "systemd-run") = true ->
   _select_delegate which = (Ok SystemdBackend, [Which (lit "systemd-run")])) /\
  (which (lit "systemd-run") = false -> which (lit "at") = true ->
   _select_delegate which =
   (Ok AtBackend, [Which (lit "systemd-run"); Which (lit "at")])) /\
  (which (lit "systemd-run") = false -> which (lit "at") = false ->
   _select_delegate which =
   (Raise (SystemExit [Lit "error: ";
                       Lit "no usable backend found: need one of ";
                       Lit "systemd, at"]),
    [Which (lit "systemd-run"); Which (lit "at")])) /\
  (forall c cls tr,
     _select_delegate which = (Ok cls, tr) ->
     auto_step which auto_new (UseSchedule c) =
     mk_outcome (mk_auto (Some cls)) (Ok None) (tr ++ [Forward cls c])) /\
  (forall c e tr,
     _select_delegate which = (Raise e, tr) ->
     auto_step which auto_new (UseSchedule c) =
     mk_outcome auto_new (Raise e) tr) /\
  (forall cls c,
     auto_step which (mk_auto (Some cls)) (UseSchedule c) =
     mk_outcome (mk_auto (Some cls)) (Ok None) [Forward cls c]) /\
  (forall cls steps,
     auto_run (mk_auto (Some cls)) steps =
     (mk_auto (Some cls), map (fun step => Forward cls (snd step)) steps)) /\
  (forall c rest cls tr,
     _select_delegate which = (Ok cls, tr) ->
     auto_run auto_new ((which, c) :: rest) =
     (mk_auto (Some cls),
      (tr ++ [Forward cls c]) ++ map (fun step => Forward cls (snd step)) rest)) /\
  (forall self,
     after (auto_step which self UseIsAvailable) = self /\
     returned (auto_step which self UseIsAvailable) =
     Ok (Some (which (lit "systemd-run") || which (lit "at")))).
Proof.
  split; [apply select_systemd|].
  split; [apply select_at|].
  split; [apply select_none|].
  split.
  { intros c cls tr E. unfold auto_step, auto_schedule, delegate.
    cbn [_delegate auto_new]. rewrite E. reflexivity. }
  split.
  { intros c e tr E. unfold auto_step, auto_schedule, delegate.
    cbn [_delegate auto_new]. rewrite E. reflexivity. }
  split; [reflexivity|].
  split; [exact auto_run_cached|].
  split; [apply auto_run_fresh|].
  intros self. unfold auto_step, auto_is_available, BACKENDS. cbn.
  repeat match goal with
  | |- context [which ?cmd] => destruct (which cmd)
  end; split; reflexivity.
Qed.

Lemma auto_backend_spec_witness :
  _select_delegate (fun cmd => str_eqb cmd (lit "systemd-run")) =
    (Ok SystemdBackend, [Which (lit "systemd-run")]) /\
  _select_delegate (fun cmd => str_eqb cmd (lit "at")) =
    (Ok AtBackend, [Which (lit "systemd-run"); Which (lit "at")]) /\
  _select_delegate (fun _ => false) =
    (Raise (SystemExit [Lit "error: ";
                        Lit "no usable backend found: need one of ";
                        Lit "systemd, at"]),
     [Which (lit "systemd-run"); Which (lit "at")]) /\
  auto_step (fun cmd => str_eqb cmd (lit "at")) auto_new
    (UseSchedule (ScheduleIn (mk_timedelta 0 1800 0) (lit "Reminder") (lit "tea"))) =
    mk_outcome (mk_auto (Some AtBackend)) (Ok None)
      ([Which (lit "systemd-run"); Which (lit "at")]
       ++ [Forward AtBackend
             (ScheduleIn (mk_timedelta 0 1800 0) (lit "Reminder") (lit "tea"))]) /\
  auto_step (fun _ => false) auto_new
    (UseSchedule (ScheduleIn (mk_timedelta 0 1800 0) (lit "Reminder") (lit "tea"))) =
    mk_outcome auto_new
      (Raise (SystemExit [Lit "error: ";
                          Lit "no usable backend found: need one of ";
                          Lit "systemd, at"]))
      [Which (lit "systemd-run"); Which (lit "at")].
Proof.
  split.
  { apply (proj1 (auto_backend_spec (fun cmd => str_eqb cmd (lit "systemd-run")))).
    reflexivity. }
  split.
  { apply (proj1 (proj2 (auto_backend_spec (fun cmd => str_eqb cmd (lit "at")))));
      reflexivity. }
  split.
  { apply (proj1 (proj2 (proj2 (auto_backend_spec (fun _ => false)))));
      reflexivity. }
  split.
  { apply (proj1 (proj2 (proj2 (proj2
             (auto_backend_spec (fun cmd => str_eqb cmd (lit "at"))))))).
    reflexivity. }
  apply (proj1 (proj2 (proj2 (proj2 (proj2 (auto_backend_spec (fun _ => false))))))).
  reflexivity.
Defined.

(** ** The shell line of the at backend *)

Lemma sh_run_app (st : sh_state) (a b : str) :
  sh_run st (a ++ b) = sh_run (sh_run st a) b.
Proof. apply fold_left_app. Qed.

Lemma sh_run_cons (st : sh_state) (c : ascii) (s : str) :
  sh_run st (c :: s) = sh_run (sh_step st c) s.
Proof. reflexivity. Qed.

(** A safe character is an ordinary character of an unquoted word. *)
Lemma safe_step (c : ascii) (w : option str) (argv : list str)
    (done : list (list str)) :
  is_safe_char c = true ->
  sh_step (Lexing Unquoted w argv done) c = Lexing Unquoted (push w c) argv done.
Proof.
  destruct c as [[] [] [] [] [] [] [] []]; intros H;
    try (vm_compute in H; discriminate H); destruct w; reflexivity.
Qed.

Lemma safe_run (s : str) :
  forall (w : option str) (argv : list str) (done : list (list str)),
    forallb is_safe_char s = true ->
    sh_run (Lexing Unquoted w argv done) s =
    Lexing Unquoted (match s with [] => w | _ => Some (word_of w ++ s) end)
      argv done.
Proof.
  induction s as [|c s IH]; intros w argv done H; [reflexivity|].
  cbn [forallb] in H. apply andb_prop in H. destruct H as [Hc Hs].
  rewrite sh_run_cons, safe_step by assumption. rewrite IH by assumption.
  unfold push. cbn [word_of]. destruct s as [|c' s'].
  - reflexivity.
  - rewrite <- app_assoc. reflexivity.
Qed.

Lemma replace_char_cons (old : ascii) (new : str) (c : ascii) (s : str) :
  replace_char old new (c :: s) =
  (if Ascii.eqb c old then new else [c]) ++ replace_char old new s.
Proof. reflexivity. Qed.

(** Inside single quotes the text written for [s] is read back as [s]. *)
Lemma quoted_body_run (s : str) :
  forall (w : str) (argv : list str) (done : list (list str)),
    sh_run (Lexing SingleQuoted (Some w) argv done)
      (replace_char "'" ["'"; dquote; "'"; dquote; "'"]%char s) =
    Lexing SingleQuoted (Some (w ++ s)) argv done.
Proof.
  induction s as [|c s IH]; intros w argv done.
  - cbn. rewrite app_nil_r. reflexivity.
  - rewrite replace_char_cons, sh_run_app.
    destruct (Ascii.eqb_spec c "'"%char) as [-> | Hne].
    + change (sh_run (Lexing SingleQuoted (Some w) argv done)
                ["'"; dquote; "'"; dquote; "'"]%char)
        with (Lexing SingleQuoted (Some (w ++ ["'"%char])) argv done).
      rewrite IH, <- app_assoc. reflexivity.
    + assert (Hstep : sh_run (Lexing SingleQuoted (Some w) argv done) [c] =
                      Lexing SingleQuoted (Some (w ++ [c])) argv done).
      { cbn. apply Ascii.eqb_neq in Hne. rewrite Hne. reflexivity. }
      rewrite Hstep, IH, <- app_assoc. reflexivity.
Qed.

(** Read at the start of a word, [shlex.quote s] is the word [s]. *)
Lemma quote_run (s : str) (argv : list str) (done : list (list str)) :
  sh_run (Lexing Unquoted None argv done) (shlex_quote s) =
  Lexing Unquoted (Some s) argv done.
Proof.
  unfold shlex_quote. destruct s as [|c s]; [reflexivity|].
  destruct (forallb is_safe_char (c :: s)) eqn:Hsafe.
  - rewrite safe_run by assumption. reflexivity.
  - rewrite sh_run_app. change (sh_run (Lexing Unquoted None argv done) (lit "'"))
      with (Lexing SingleQuoted (Some []) argv done).
    rewrite sh_run_app, quoted_body_run. reflexivity.
Qed.

Lemma at_input_run (title message : str) :
  sh_run sh_start (at_input title message) =
  Lexing Unquoted None [] [[lit "notify-send"; title; message]].
Proof.
  unfold at_input, _build_notify_shell_command. cbn [join].
  rewrite sh_run_app. rewrite sh_run_app.
  change (sh_run sh_start (lit "notify-send"))
    with (Lexing Unquoted (Some (lit "notify-send")) [] []).
  rewrite sh_run_app.
  change (sh_run (Lexing Unquoted (Some (lit "notify-send")) [] []) (lit " "))
    with (Lexing Unquoted None [lit "notify-send"] []).
  rewrite sh_run_app, quote_run. rewrite sh_run_app.
  change (sh_run (Lexing Unquoted (Some title) [lit "notify-send"] []) (lit " "))
    with (Lexing Unquoted None [lit "notify-send"; title] []).
  rewrite quote_run. reflexivity.
Qed.

(** C1.  For every title and every message, the shell reading the line
    that the at backend submits runs one command: notify-send with the
    title as its first argument and the message as its second, each
    exactly as given.  It performs no expansion, substitution,
    redirection or grouping and runs no second command.  Built without
    quoting, the same line would run rm for a message ending in
    "; rm -rf /" and would perform a substitution for "$(reboot)". *)
Theorem shell_line_is_literal :
  (forall title message : str,
     sh_interpret (at_input title message)
     = Runs [[lit "notify-send"; title; message]]) /\
  sh_interpret (unquoted_command "Reminder" "x; rm -rf /" ++ [newline])
  = Runs [[lit "notify-send"; lit "Reminder"; lit "x"];
          [lit "rm"; lit "-rf"; lit "/"]] /\
  sh_interpret (unquoted_command "Reminder" "$(reboot)" ++ [newline])
  = Performs Expansion.
Proof.
  split; [|split; reflexivity].
  intros title message. unfold sh_interpret. rewrite at_input_run. reflexivity.
Qed.

(** * Properties of the rest of the program *)

(** ** Verbosity *)

(** X1.  A higher verbosity never gives a less detailed logging level:
    [verbosity_to_log_level] is antitone, from ERROR at -2 and below to
    DEBUG at 1 and above. *)
Theorem verbosity_to_log_level_antitone (a b : Z) :
  (a <= b)%Z ->
  (verbosity_to_log_level b <= verbosity_to_log_level a)%Z /\
  (DEBUG <= verbosity_to_log_level a <= ERROR)%Z /\
  (verbosity_to_log_level a = ERROR <-> (a <= -2)%Z) /\
  (verbosity_to_log_level a = DEBUG <-> (1 <= a)%Z).
Proof.
  intros Hab. unfold verbosity_to_log_level, ERROR, WARNING, INFO, DEBUG.
  cbv zeta.
  destruct (Z.leb_spec a (-2)); destruct (Z.eqb_spec a (-1));
    destruct (Z.eqb_spec a 0); destruct (Z.leb_spec b (-2));
    destruct (Z.eqb_spec b (-1)); destruct (Z.eqb_spec b 0);
    try lia; repeat split; intros; try lia; try discriminate.
Qed.

Lemma verbosity_to_log_level_antitone_witness :
  (verbosity_to_log_level 1 <= verbosity_to_log_level (-1))%Z /\
  (DEBUG <= verbosity_to_log_level (-1) <= ERROR)%Z /\
  (verbosity_to_log_level (-1) = ERROR <-> (-1 <= -2)%Z) /\
  (verbosity_to_log_level (-1) = DEBUG <-> (1 <= -1)%Z).
Proof.
  apply (verbosity_to_log_level_antitone (-1) 1). lia.
Defined.

(** ** Trimming *)

Lemma strip_last (text r : str) (c : ascii) :
  strip text = r ++ [c] -> isspace c = false.
Proof.
  unfold strip, rstrip. intros E.
  apply (f_equal (@rev ascii)) in E.
  rewrite rev_involutive, rev_unit in E.
  eapply lstrip_head. exact E.
Qed.

Lemma lstrip_blank (s : str) : forallb isspace s = true -> lstrip s = [].
Proof.
  induction s as [|c s IH]; [reflexivity|]. simpl. intros H.
  apply andb_prop in H. destruct H as [Hc Hs]. rewrite Hc. auto.
Qed.

Lemma strip_blank (s : str) : forallb isspace s = true -> strip s = [].
Proof.
  intros H. unfold strip. rewrite lstrip_blank by assumption. reflexivity.
Qed.

Lemma join_blank (words : list str) :
  Forall (fun word => forallb isspace word = true) words ->
  forallb isspace (join (lit " ") words) = true.
Proof.
  induction words as [|x rest IH]; intros H; [reflexivity|].
  inversion H as [|? ? Hx Hrest]; subst. specialize (IH Hrest).
  destruct rest as [|y rest']; [exact Hx|].
  change (join (lit " ") (x :: y :: rest'))
    with (x ++ lit " " ++ join (lit " ") (y :: rest')).
  rewrite !forallb_app, Hx, IH. reflexivity.
Qed.

(** ** [parse_args]: the message, the title, the level *)

Lemma parse_args_returned (which : str -> bool) (ns : namespace)
    (opt : Options) (fx : list effect) :
  parse_args_after_argparse which ns = (Returned opt, fx) ->
  fst (parse_backend which (ns_backend ns)) = Returned (opt_backend opt) /\
  opt_verbosity opt = (-1 + ns_verbose ns - ns_quiet ns)%Z /\
  method_message (opt_method opt) = strip (join (lit " ") (ns_message ns)) /\
  method_message (opt_method opt) <> [] /\
  method_title (opt_method opt) = ns_title ns /\
  (forall d, ns_command ns = CommandIn d ->
     exists msg title, opt_method opt = MethodIn d msg title) /\
  (forall when, ns_command ns = CommandAt when ->
     exists msg title, opt_method opt = MethodAt when msg title).
Proof.
  unfold parse_args_after_argparse.
  destruct (parse_backend which (ns_backend ns)) as [[b | e] fx0];
    [|intros E; discriminate E].
  cbv zeta.
  destruct (ns_command ns) as [d | when | name];
    destruct (strip (join (lit " ") (ns_message ns))) as [|c r] eqn:Emsg;
    intros E; try discriminate E;
    injection E as <- _; cbn;
    (repeat split; try reflexivity; try discriminate;
     intros x Hx; inversion Hx; subst; eauto).
Qed.

(** X2.  When [parse_args] returns options, their message is the words
    of the command line joined by single spaces and trimmed; it is not
    empty and neither starts nor ends with white space; the title is the
    one given, unchanged. *)
Theorem parse_args_message (which : str -> bool) (ns : namespace)
    (opt : Options) (fx : list effect) :
  parse_args_after_argparse which ns = (Returned opt, fx) ->
  method_message (opt_method opt) = strip (join (lit " ") (ns_message ns)) /\
  (exists first rest last,
     (method_message (opt_method opt) = first :: rest) /\
     (exists init, method_message (opt_method opt) = init ++ [last]) /\
     isspace first = false /\ isspace last = false) /\
  method_title (opt_method opt) = ns_title ns.
Proof.
  intros E. destruct (parse_args_returned which ns opt fx E)
    as (_ & _ & Hmsg & Hne & Htitle & _).
  split; [exact Hmsg|]. split; [|exact Htitle].
  rewrite Hmsg in *.
  destruct (strip (join (lit " ") (ns_message ns))) as [|c r] eqn:Es;
    [contradiction|].
  pose proof (strip_head _ c r Es) as Hc.
  assert (Hnil : c :: r <> []) by discriminate.
  pose proof (app_removelast_last c Hnil) as Hlast.
  exists c, r, (last (c :: r) c). split; [reflexivity|].
  split; [exists (removelast (c :: r)); exact Hlast|].
  split; [exact Hc|].
  rewrite Hlast in Es. eapply strip_last. exact Es.
Qed.

Lemma parse_args_message_witness :
  method_message (MethodIn (mk_timedelta 0 1800 0) (lit "Take a break") (lit "Reminder"))
  = strip (join (lit " ") [lit " Take"; lit "a"; lit "break  "]) /\
  (exists first rest last,
     (method_message (MethodIn (mk_timedelta 0 1800 0) (lit "Take a break")
                        (lit "Reminder")) = first :: rest) /\
     (exists init,
        method_message (MethodIn (mk_timedelta 0 1800 0) (lit "Take a break")
                          (lit "Reminder")) = init ++ [last]) /\
     isspace first = false /\ isspace last = false) /\
  method_title (MethodIn (mk_timedelta 0 1800 0) (lit "Take a break") (lit "Reminder"))
  = lit "Reminder".
Proof.
  apply (parse_args_message (fun _ => true)
           (mk_namespace (lit "systemd") (lit "Reminder") 0 0
              (CommandIn (mk_timedelta 0 1800 0))
              [lit " Take"; lit "a"; lit "break  "])
           (mk_options SystemdInstance
              (MethodIn (mk_timedelta 0 1800 0) (lit "Take a break") (lit "Reminder"))
              (-1))
           [Lookup (lit "systemd-run")]).
  reflexivity.
Defined.

(** X3.  When the backend is available and every word of the message is
    white space (or there is no word), [parse_args] dies with "message is
    required", for [in] and for [at]. *)
Theorem parse_args_blank_message (which : str -> bool) (ns : namespace)
    (b : backend) (fx : list effect) :
  parse_backend which (ns_backend ns) = (Returned b, fx) ->
  Forall (fun word => forallb isspace word = true) (ns_message ns) ->
  (forall name, ns_command ns <> CommandOther name) ->
  parse_args_after_argparse which ns =
  (Raised (Builtin (SystemExit [Lit "error: "; Lit "message is required"])), fx).
Proof.
  intros Hb Hblank Hcmd. unfold parse_args_after_argparse. rewrite Hb.
  cbv zeta. rewrite (strip_blank _ (join_blank _ Hblank)).
  destruct (ns_command ns) as [d | when | name]; try reflexivity.
  exfalso. apply (Hcmd name). reflexivity.
Qed.

Lemma parse_args_blank_message_witness :
  parse_args_after_argparse (fun _ => true)
    (mk_namespace (lit "at") (lit "Reminder") 0 0
       (CommandIn (mk_timedelta 0 1800 0)) [lit "  "; [tab]])
  = (Raised (Builtin (SystemExit [Lit "error: "; Lit "message is required"])),
     [Lookup (lit "at")]).
Proof.
  apply (parse_args_blank_message (fun _ => true)
           (mk_namespace (lit "at") (lit "Reminder") 0 0
              (CommandIn (mk_timedelta 0 1800 0)) [lit "  "; [tab]])
           AtInstance [Lookup (lit "at")]).
  - reflexivity.
  - repeat constructor.
  - intros name H. discriminate H.
Defined.

(** X4.  The logging level [main] sets from the flags [parse_args]
    counted (argparse admits -v or -q, not both): no flag gives WARNING,
    one -v INFO, two or more -v DEBUG, and any number of -q ERROR. *)
Theorem log_level_of_flags (which : str -> bool) (ns : namespace)
    (opt : Options) (fx : list effect) (w : world) :
  parse_args_after_argparse which ns = (Returned opt, fx) ->
  (0 <= ns_verbose ns)%Z -> (0 <= ns_quiet ns)%Z ->
  ns_verbose ns = 0%Z \/ ns_quiet ns = 0%Z ->
  exists rest,
    snd (main w opt) =
    LogLevel (if (1 <=? ns_quiet ns)%Z then ERROR
              else if (ns_verbose ns =? 0)%Z then WARNING
              else if (ns_verbose ns =? 1)%Z then INFO
              else DEBUG) :: rest.
Proof.
  intros E Hv Hq Hex.
  destruct (parse_args_returned which ns opt fx E) as (_ & Hverb & _).
  assert (Hlevel : verbosity_to_log_level (opt_verbosity opt) =
                   if (1 <=? ns_quiet ns)%Z then ERROR
                   else if (ns_verbose ns =? 0)%Z then WARNING
                   else if (ns_verbose ns =? 1)%Z then INFO
                   else DEBUG).
  { rewrite Hverb. unfold verbosity_to_log_level. cbv zeta.
    destruct (Z.leb_spec 1 (ns_quiet ns));
      destruct (Z.eqb_spec (ns_verbose ns) 0);
      destruct (Z.eqb_spec (ns_verbose ns) 1);
      destruct (Z.leb_spec (-1 + ns_verbose ns - ns_quiet ns) (-2));
      destruct (Z.eqb_spec (-1 + ns_verbose ns - ns_quiet ns) (-1));
      destruct (Z.eqb_spec (-1 + ns_verbose ns - ns_quiet ns) 0);
      try reflexivity; lia. }
  unfold main. cbv zeta. rewrite Hlevel.
  destruct (check_notify_send w) as [[u | e] fx1].
  - destruct (backend_schedule w (opt_backend opt)
                (call_of_method (opt_method opt))) as [[b' r] fx2].
    eexists. reflexivity.
  - eexists. reflexivity.
Qed.

Lemma log_level_of_flags_witness :
  exists rest,
    snd (main (mk_world (fun _ => false) (fun _ _ => Exited 0 []) 
                 (mk_datetime 2026 1 15 10 0 0 0))
           (mk_options SystemdInstance
              (MethodIn (mk_timedelta 0 1800 0) (lit "tea") (lit "Reminder")) (-3)))
    = LogLevel ERROR :: rest.
Proof.
  apply (log_level_of_flags (fun _ => true)
           (mk_namespace (lit "systemd") (lit "Reminder") 0 2
              (CommandIn (mk_timedelta 0 1800 0)) [lit "tea"])
           (mk_options SystemdInstance
              (MethodIn (mk_timedelta 0 1800 0) (lit "tea") (lit "Reminder")) (-3))
           [Lookup (lit "systemd-run")]
           (mk_world (fun _ => false) (fun _ _ => Exited 0 [])
              (mk_datetime 2026 1 15 10 0 0 0)));
    [reflexivity | cbn; lia | cbn; lia | left; reflexivity].
Defined.

(** ** [parse_backend] and the two scans of the registry *)

(** On every registry, [AutoBackend.is_available] answers yes exactly when
    the loop of [_select_delegate] finds a backend, after the same
    lookups. *)
Lemma any_available_first_available (which : str -> bool)
    (registry : list (str * backend_cls)) :
  any_available which registry =
  (match fst (first_available which registry) with
   | Some _ => true
   | None => false
   end,
   snd (first_available which registry)).
Proof.
  induction registry as [|[name cls] rest IH]; [reflexivity|].
  cbn [any_available first_available].
  destruct (str_eqb name (lit "auto")); [exact IH|].
  destruct (concrete_is_available which cls) as [a tr].
  destruct a; [reflexivity|].
  rewrite IH. destruct (first_available which rest) as [r tr']. reflexivity.
Qed.

Lemma first_available_concrete (which : str -> bool)
    (registry : list (str * backend_cls)) (cls : backend_cls) :
  fst (first_available which registry) = Some cls ->
  cls <> AutoBackend /\ fst (concrete_is_available which cls) = true.
Proof.
  induction registry as [|[name c] rest IH]; [discriminate|].
  cbn [first_available].
  destruct (str_eqb name (lit "auto")); [exact IH|].
  destruct (concrete_is_available which c) as [a tr] eqn:Ec.
  destruct a.
  - cbn. intros E. injection E as <-. rewrite Ec. split; [|reflexivity].
    intros ->. cbn in Ec. discriminate Ec.
  - destruct (first_available which rest) as [r tr']. exact IH.
Qed.

(** X5.  [parse_backend "auto"] returns an instance exactly when the
    first scheduling call on that instance will find a delegate: if it
    returns, the scan of [_select_delegate] under the same search path
    selects an available backend other than the auto backend, after the
    same lookups; if it raises "not available", that scan dies. *)
Theorem parse_backend_auto_agrees (which : str -> bool) :
  (exists cls tr,
     _select_delegate which = (Ok cls, tr) /\
     cls <> AutoBackend /\
     fst (concrete_is_available which cls) = true /\
     parse_backend which (lit "auto") =
     (Returned (AutoInstance auto_new), lookups tr) /\
     after (delegate which auto_new) = mk_auto (Some cls)) \/
  (exists tr,
     _select_delegate which = (die msg_no_backend, tr) /\
     parse_backend which (lit "auto") =
     (Raised (ArgumentTypeError (msg_backend_unavailable (lit "auto"))),
      lookups tr)).
Proof.
  unfold parse_backend.
  change (registry_get BACKENDS (lit "auto")) with (Some AutoBackend).
  unfold class_is_available, auto_is_available, _select_delegate, delegate.
  rewrite any_available_first_available. cbn [_delegate auto_new].
  unfold _select_delegate.
  pose proof (first_available_concrete which BACKENDS) as Hc.
  destruct (first_available which BACKENDS) as [[cls|] tr]; cbn [fst snd] in *.
  - left. exists cls, tr. destruct (Hc cls eq_refl) as [H1 H2].
    repeat split; auto.
  - right. exists tr. split; reflexivity.
Qed.

Lemma registry_get_backends (name : str) (cls : backend_cls) :
  registry_get BACKENDS name = Some cls ->
  (name = lit "auto" /\ cls = AutoBackend) \/
  (name = lit "systemd" /\ cls = SystemdBackend) \/
  (name = lit "at" /\ cls = AtBackend).
Proof.
  unfold BACKENDS, registry_get, str_eqb.
  destruct (list_eq_dec ascii_dec (lit "auto") name) as [<- | _].
  { intros E. injection E as <-. auto. }
  destruct (list_eq_dec ascii_dec (lit "systemd") name) as [<- | _].
  { intros E. injection E as <-. auto. }
  destruct (list_eq_dec ascii_dec (lit "at") name) as [<- | _].
  { intros E. injection E as <-. auto. }
  discriminate.
Qed.

(** X6.  [parse_backend] returns an instance only for the names auto,
    systemd and at, and only of a backend that is available: systemd with
    systemd-run on the search path, at with at, auto with one of the two.
    For any other name it raises "unknown backend" naming "auto, systemd,
    at" and looks nothing up. *)
Theorem parse_backend_sound (which : str -> bool) (name : str) :
  (forall b fx,
     parse_backend which name = (Returned b, fx) ->
     (name = lit "auto" /\ b = AutoInstance auto_new /\
      which (lit "systemd-run") || which (lit "at") = true) \/
     (name = lit "systemd" /\ b = SystemdInstance /\
      which (lit "systemd-run") = true) \/
     (name = lit "at" /\ b = AtInstance /\ which (lit "at") = true)) /\
  (name <> lit "auto" -> name <> lit "systemd" -> name <> lit "at" ->
   parse_backend which name =
   (Raised (ArgumentTypeError
              [Lit "unknown backend '"; Lit name; Lit "': choose from ";
               Lit "auto, systemd, at"]), [])).
Proof.
  split.
  - intros b fx. unfold parse_backend.
    destruct (registry_get BACKENDS name) as [cls|] eqn:Eg; [|discriminate].
    destruct (registry_get_backends name cls Eg)
      as [[-> ->] | [[-> ->] | [-> ->]]];
      unfold class_is_available, auto_is_available, BACKENDS; cbn;
      repeat match goal with
      | |- context [which ?cmd] => destruct (which cmd) eqn:?
      end; intros E; try discriminate E; injection E as <- _; auto 10.
  - intros H1 H2 H3. unfold parse_backend, BACKENDS, registry_get, str_eqb.
    destruct (list_eq_dec ascii_dec (lit "auto") name); [congruence|].
    destruct (list_eq_dec ascii_dec (lit "systemd") name); [congruence|].
    destruct (list_eq_dec ascii_dec (lit "at") name); [congruence|].
    reflexivity.
Qed.

Lemma parse_backend_sound_witness :
  ((lit "at" = lit "auto" /\ AtInstance = AutoInstance auto_new /\
    false || true = true) \/
   (lit "at" = lit "systemd" /\ AtInstance = SystemdInstance /\ false = true) \/
   (lit "at" = lit "at" /\ AtInstance = AtInstance /\ true = true)) /\
  parse_backend (fun _ => true) (lit "cron") =
  (Raised (ArgumentTypeError
             [Lit "unknown backend '"; Lit "cron"; Lit "': choose from ";
              Lit "auto, systemd, at"]), []).
Proof.
  split.
  - apply (proj1 (parse_backend_sound (fun cmd => str_eqb cmd (lit "at")) (lit "at"))
             AtInstance [Lookup (lit "at")]).
    reflexivity.
  - apply (proj2 (parse_backend_sound (fun _ => true) (lit "cron")));
      intros H; discriminate H.
Defined.

(** ** Durations: the formatter against the parser *)

Lemma systemd_unit_letter (u : Z) (letter : ascii) :
  In (u, letter) systemd_units ->
  is_unit letter = true /\ unit_seconds letter = u.
Proof.
  unfold systemd_units. simpl. intros H.
  repeat (destruct H as [H | H]; [injection H as <- <-; split; reflexivity|]).
  contradiction.
Qed.

(** The formatter followed by the parser, on a span of [t] seconds. *)
Lemma format_span_parse (t : Z) :
  (1 <= t <= max_span)%Z ->
  exists s,
    format_systemd_duration (span_delta t) = Ok s /\
    parse_duration s = Ok (span_delta t).
Proof.
  intros Ht.
  assert (Hws : whole_seconds (span_delta t) = t)
    by (apply whole_seconds_span; pose proof max_span_small; lia).
  assert (Hw : (0 < whole_seconds (span_delta t))%Z) by (rewrite Hws; lia).
  destruct (format_positive _ Hw) as (q & k & letter & Hin & Hq & _ & Hf).
  rewrite Hws in Hq.
  destruct (systemd_unit_letter k letter Hin) as [Hl Hk].
  pose proof (unit_seconds_pos letter Hl) as Hkpos. rewrite Hk in Hkpos.
  exists (str_of_Z q ++ [letter]). split; [exact Hf|].
  rewrite Hq. rewrite <- Hk.
  apply parse_duration_numeral; [nia | exact Hl|].
  rewrite Hk, <- Hq. lia.
Qed.

(** X7.  Round trip: the string the formatter writes for a duration that
    [parse_duration] returned is parsed back to that same duration. *)
Theorem format_then_parse (text : str) (d : timedelta) :
  parse_duration text = Ok d ->
  exists s, format_systemd_duration d = Ok s /\ parse_duration s = Ok d.
Proof.
  intros E. apply parse_duration_ok_iff in E.
  destruct E as (ds & u & _ & Hu & _ & _ & Hpos & Hmax & ->).
  pose proof (unit_seconds_pos u Hu) as Hus.
  apply format_span_parse. split; [nia | exact Hmax].
Qed.

Lemma format_then_parse_witness :
  exists s,
    format_systemd_duration (mk_timedelta 0 5400 0) = Ok s /\
    parse_duration s = Ok (mk_timedelta 0 5400 0).
Proof.
  apply (format_then_parse (lit "5400s")). reflexivity.
Defined.

(** X8.  The formatter is injective on whole-second counts: two
    durations formatted to the same string have the same value of
    [int(delta.total_seconds())].  (One microsecond below 198842 days
    and 198842 days are both formatted 198842d, and both have
    17179948800 for that value.) *)
Theorem format_systemd_duration_injective (d1 d2 : timedelta) (s : str) :
  format_systemd_duration d1 = Ok s ->
  format_systemd_duration d2 = Ok s ->
  whole_seconds d1 = whole_seconds d2.
Proof.
  intros E1 E2.
  assert (Hpos : forall d, format_systemd_duration d = Ok s ->
                           (0 < whole_seconds d)%Z).
  { intros d E. destruct (Z.ltb_spec 0 (whole_seconds d)) as [H | H]; [exact H|].
    rewrite (format_non_positive d H) in E. discriminate E. }
  destruct (format_positive d1 (Hpos d1 E1)) as (q1 & k1 & l1 & Hin1 & Hq1 & _ & Hf1).
  destruct (format_positive d2 (Hpos d2 E2)) as (q2 & k2 & l2 & Hin2 & Hq2 & _ & Hf2).
  pose proof (Hpos d1 E1) as P1. pose proof (Hpos d2 E2) as P2.
  rewrite E1 in Hf1. rewrite E2 in Hf2.
  injection Hf1 as Hs1. injection Hf2 as Hs2. rewrite Hs1 in Hs2.
  apply app_inj_tail in Hs2. destruct Hs2 as [Hq Hl]. subst l2.
  destruct (systemd_unit_letter k1 l1 Hin1) as [Hu1 Hk1].
  destruct (systemd_unit_letter k2 l1 Hin2) as [_ Hk2].
  pose proof (unit_seconds_pos l1 Hu1) as Hkpos.
  assert (Hq1pos : (0 <= q1)%Z) by nia.
  assert (Hq2pos : (0 <= q2)%Z) by nia.
  apply (f_equal decimal_value) in Hq.
  rewrite (proj2 (str_of_Z_spec q1 Hq1pos)) in Hq.
  rewrite (proj2 (str_of_Z_spec q2 Hq2pos)) in Hq.
  rewrite Hq1, Hq2. congruence.
Qed.

Lemma format_systemd_duration_injective_witness :
  whole_seconds (mk_timedelta 0 3600 0) = whole_seconds (mk_timedelta 0 3600 999) /\
  whole_seconds (mk_timedelta 198841 86399 999999) =
  whole_seconds (mk_timedelta 198842 0 0).
Proof.
  split.
  - apply (format_systemd_duration_injective _ _ (lit "1h")); reflexivity.
  - apply (format_systemd_duration_injective _ _ (lit "198842d")); reflexivity.
Defined.

(** ** [parse_when]: every exit *)

Lemma looks_time_only_defined (text : str) :
  strip text <> [] -> exists b, looks_time_only (strip text) = Ok b.
Proof.
  intros Hne. destruct (first_token_exists text Hne) as [tok Htok].
  rewrite (looks_time_only_eq _ tok Htok). eexists. reflexivity.
Qed.

(** X9.  Whatever the free-form parser answers, [parse_when] ends in one
    of four ways: it returns an instant, it dies with a message that
    starts with "error: ", the day it adds overflows (only when the clock
    is in year 9999 or later), or the comparison with the current moment
    raises TypeError (only when the parser returned a datetime with a
    time zone and the text is not classified time-only).  In particular
    [raw.split()[0]] never raises. *)
Theorem parse_when_exits (dtparse : str -> datetime -> parsed + str)
    (now : datetime) (text : str) :
  (exists r, parse_when dtparse now text = Ok r) \/
  (exists msg,
     parse_when dtparse now text = Raise (SystemExit (Lit "error: " :: msg))) \/
  (parse_when dtparse now text = Raise OverflowError /\ (MAXYEAR <= year now)%Z) \/
  (parse_when dtparse now text = Raise TypeError /\
   looks_time_only (strip text) = Ok false /\
   exists dt utcoffset,
     dtparse (strip text) (replace_microsecond now 0) = inl (Aware dt utcoffset)).
Proof.
  destruct (strip text) as [|c r] eqn:Es.
  { right. left. eexists. unfold parse_when. rewrite Es. reflexivity. }
  assert (Hne : strip text <> []) by (rewrite Es; discriminate).
  rewrite <- Es. rewrite parse_when_nonblank by exact Hne.
  destruct (looks_time_only_defined text Hne) as [b Hb].
  destruct (dtparse (strip text) (replace_microsecond now 0)) as [p | e].
  - cbv zeta. rewrite Hb. simpl bind. destruct b.
    + destruct (datetime_le _ now); [|left; eexists; reflexivity].
      destruct (Z.ltb_spec (year now) MAXYEAR) as [Hy | Hy].
      * destruct (next_day_defined
                    (replace_time now
                       (hour (replace_microsecond (wall_clock p) 0))
                       (minute (replace_microsecond (wall_clock p) 0))
                       (second (replace_microsecond (wall_clock p) 0)) 0) Hy)
          as [r' Hr].
        left. exists r'. exact Hr.
      * unfold next_day. cbn [year month day replace_time].
        destruct (day now <? days_in_month (year now) (month now))%Z;
          [left; eexists; reflexivity|].
        destruct (month now <? 12)%Z; [left; eexists; reflexivity|].
        destruct (Z.ltb_spec (year now) MAXYEAR); [lia|].
        right. right. left. split; [reflexivity | exact Hy].
    + destruct p as [dt | dt off].
      * destruct (datetime_le _ now); [right; left | left]; eexists; reflexivity.
      * right. right. right. split; [reflexivity|].
        split; [reflexivity|]. exists dt, off. reflexivity.
  - right. left. eexists. reflexivity.
Qed.

(** X10.  Every instant [parse_when] returns is strictly after the
    current moment and has no sub-second part. *)
Theorem parse_when_future (dtparse : str -> datetime -> parsed + str)
    (now : datetime) (text : str) (r : datetime) :
  parse_when dtparse now text = Ok r ->
  datetime_lt now r = true /\ microsecond r = 0%Z.
Proof.
  destruct (strip text) as [|c s] eqn:Es.
  { unfold parse_when. rewrite Es. discriminate. }
  assert (Hne : strip text <> []) by (rewrite Es; discriminate).
  rewrite parse_when_nonblank by exact Hne.
  destruct (dtparse (strip text) (replace_microsecond now 0)) as [p | e];
    [|discriminate].
  cbv zeta. destruct (looks_time_only (strip text)) as [[|] | e];
    simpl bind; [| |discriminate].
  - rewrite datetime_le_lt.
    destruct (datetime_lt now _) eqn:Hc; simpl negb; cbv iota.
    + intros E. injection E as <-. split; [exact Hc | reflexivity].
    + intros E. destruct (next_day_after now _ _ _ _ r E) as (H1 & _ & _ & _ & H5).
      split; assumption.
  - destruct p as [dt | dt off]; [|discriminate].
    cbn [wall_clock]. rewrite datetime_le_lt.
    destruct (datetime_lt now (replace_microsecond dt 0)) eqn:Hc;
      simpl negb; cbv iota; [|discriminate].
    intros E. injection E as <-. split; [exact Hc | reflexivity].
Qed.

Lemma parse_when_future_witness :
  datetime_lt (mk_datetime 2026 1 15 16 0 0 250) (mk_datetime 2026 1 16 15 0 0 0)
  = true /\
  microsecond (mk_datetime 2026 1 16 15 0 0 0) = 0%Z.
Proof.
  apply (parse_when_future example_parser (mk_datetime 2026 1 15 16 0 0 250)
           (lit "15:00")).
  reflexivity.
Defined.

(** ** Names and time stamps *)

Lemma format_0d_digits (w : nat) (n : Z) :
  (0 <= n)%Z -> forallb isdecimal_char (format_0d w n) = true.
Proof.
  intros Hn. unfold format_0d, zfill. rewrite forallb_app.
  destruct (str_of_Z_spec n Hn) as [Hdec _].
  apply isdecimal_forallb in Hdec. destruct Hdec as [_ Hall]. rewrite Hall.
  rewrite andb_true_r. apply forallb_forall. intros c Hc.
  apply repeat_spec in Hc. subst. reflexivity.
Qed.

Lemma format_0d_length (k : nat) (n : Z) :
  (0 <= n < 10 ^ Z.of_nat (S k))%Z -> length (format_0d (S k) n) = S k.
Proof. intros H. apply (format_0d_width k n H). Qed.

Lemma app_inj_length {A : Type} (a a' b b' : list A) :
  length a = length a' -> a ++ b = a' ++ b' -> a = a' /\ b = b'.
Proof.
  revert a'. induction a as [|x a IH]; intros [|y a'] Hlen E;
    try discriminate Hlen.
  - split; [reflexivity | exact E].
  - simpl in E. injection E as -> E. injection Hlen as Hlen.
    destruct (IH a' Hlen E) as [-> ->]. split; reflexivity.
Qed.

(** Two fields printed on the same width, followed by anything, are
    equal only for equal values. *)
Lemma field_inj (k : nat) (x y : Z) (r r' : str) :
  (0 <= x < 10 ^ Z.of_nat (S k))%Z -> (0 <= y < 10 ^ Z.of_nat (S k))%Z ->
  format_0d (S k) x ++ r = format_0d (S k) y ++ r' ->
  x = y /\ r = r'.
Proof.
  intros Hx Hy E. apply app_inj_length in E.
  - destruct E as [E ->]. split; [|reflexivity].
    apply (format_0d_inj (S k)); [lia | lia | exact E].
  - rewrite !format_0d_length by assumption. reflexivity.
Qed.

Lemma valid_datetime_bounds (d : datetime) :
  valid_datetime d ->
  (0 <= year d < 10 ^ Z.of_nat 4)%Z /\
  (0 <= month d < 10 ^ Z.of_nat 2)%Z /\
  (0 <= day d < 10 ^ Z.of_nat 2)%Z /\
  (0 <= hour d < 10 ^ Z.of_nat 2)%Z /\
  (0 <= minute d < 10 ^ Z.of_nat 2)%Z /\
  (0 <= second d < 10 ^ Z.of_nat 2)%Z /\
  (0 <= microsecond d < 10 ^ Z.of_nat 6)%Z.
Proof.
  intros (Hy & Hmo & Hd & Hh & Hmi & Hs & Hus).
  pose proof (days_in_month_le (year d) (month d)).
  unfold MAXYEAR in Hy. simpl. lia.
Qed.

Lemma no_space_existsb (s : str) :
  Forall (fun c => isspace c = false) s -> existsb isspace s = false.
Proof.
  induction 1 as [|c s Hc _ IH]; [reflexivity|].
  simpl. rewrite Hc, IH. reflexivity.
Qed.

Lemma forallb_Forall_impl (P : ascii -> Prop) (f : ascii -> bool) (s : str) :
  (forall c, f c = true -> P c) -> forallb f s = true -> Forall P s.
Proof.
  intros Hf H. apply Forall_forall. intros c Hc.
  apply Hf. rewrite forallb_forall in H. auto.
Qed.

(** X11.  A unit name is made of the characters of the prefix, hyphens
    and decimal digits; with the prefix "remindme" the backends use, it
    contains no white space. *)
Theorem unit_name_characters (prefix : str) (when : datetime) :
  valid_datetime when ->
  Forall (fun c => In c prefix \/ c = "-"%char \/ isdecimal_char c = true)
    (unit_name prefix when) /\
  existsb isspace (unit_name (lit "remindme") when) = false.
Proof.
  intros Hv. destruct (valid_datetime_bounds when Hv)
    as (Hy & Hmo & Hd & Hh & Hmi & Hs & Hus).
  assert (Hdig : forall w n, (0 <= n)%Z ->
            forall p, Forall (fun c => In c p \/ c = "-"%char
                                       \/ isdecimal_char c = true)
                        (format_0d w n)).
  { intros w n Hn p. apply (forallb_Forall_impl _ isdecimal_char); [auto|].
    apply format_0d_digits. exact Hn. }
  assert (Hhy : forall p, Forall (fun c => In c p \/ c = "-"%char
                                            \/ isdecimal_char c = true)
                            (lit "-")).
  { intros p. constructor; [auto | constructor]. }
  assert (Hall : forall p,
            Forall (fun c => In c p \/ c = "-"%char \/ isdecimal_char c = true)
              (unit_name p when)).
  { intros p. unfold unit_name, strftime_stamp. cbv zeta.
    rewrite !Forall_app.
    repeat split; try (apply Hdig; lia); try apply Hhy.
    - apply Forall_forall. intros c Hc. left. exact Hc.
    - apply (forallb_Forall_impl _ isdecimal_char); [auto|].
      apply strftime_Y_value. lia. }
  split; [apply Hall|].
  apply no_space_existsb.
  eapply Forall_impl; [|apply (Hall (lit "remindme"))].
  intros c [Hin | [-> | Hdec]].
  - simpl in Hin.
    repeat (destruct Hin as [<- | Hin]; [reflexivity|]). contradiction.
  - reflexivity.
  - apply isdecimal_char_not_space. exact Hdec.
Qed.

Lemma unit_name_characters_witness :
  Forall (fun c => In c (lit "remindme") \/ c = "-"%char
                   \/ isdecimal_char c = true)
    (unit_name (lit "remindme") (mk_datetime 2026 1 15 14 30 45 123456)) /\
  existsb isspace
    (unit_name (lit "remindme") (mk_datetime 2026 1 15 14 30 45 123456)) = false.
Proof.
  apply (unit_name_characters (lit "remindme")
           (mk_datetime 2026 1 15 14 30 45 123456)).
  unfold valid_datetime. vm_compute. repeat split; discriminate.
Defined.

(** X12.  The time stamp given to [at -t] has minute precision and loses
    nothing else: two valid instants of four-digit years get the same
    stamp exactly when they agree on year, month, day, hour and
    minute. *)
Theorem at_timestamp_same_minute (a b : datetime) :
  valid_datetime a -> valid_datetime b ->
  (1000 <= year a)%Z -> (1000 <= year b)%Z ->
  (at_timestamp a = at_timestamp b <->
   year a = year b /\ month a = month b /\ day a = day b /\
   hour a = hour b /\ minute a = minute b).
Proof.
  intros Ha Hb Hya Hyb.
  destruct (valid_datetime_bounds a Ha) as (Hy & Hmo & Hd & Hh & Hmi & _).
  destruct (valid_datetime_bounds b Hb) as (Hy' & Hmo' & Hd' & Hh' & Hmi' & _).
  unfold at_timestamp.
  rewrite !strftime_Y_four_digits by (simpl in Hy, Hy'; lia). split.
  - intros E.
    apply (field_inj 3) in E; [|assumption..]. destruct E as [E1 E].
    apply (field_inj 1) in E; [|assumption..]. destruct E as [E2 E].
    apply (field_inj 1) in E; [|assumption..]. destruct E as [E3 E].
    apply (field_inj 1) in E; [|assumption..]. destruct E as [E4 E].
    apply (format_0d_inj 2) in E; [|lia..].
    repeat split; assumption.
  - intros (-> & -> & -> & -> & ->). reflexivity.
Qed.

Lemma at_timestamp_same_minute_witness :
  at_timestamp (mk_datetime 2026 1 15 10 0 10 0)
  = at_timestamp (mk_datetime 2026 1 15 10 0 40 5) <->
  2026%Z = 2026%Z /\ 1%Z = 1%Z /\ 15%Z = 15%Z /\ 10%Z = 10%Z /\ 0%Z = 0%Z.
Proof.
  apply (at_timestamp_same_minute (mk_datetime 2026 1 15 10 0 10 0)
           (mk_datetime 2026 1 15 10 0 40 5));
    try (unfold valid_datetime; vm_compute; repeat split; discriminate);
    vm_compute; discriminate.
Defined.

(** X13.  The calendar trigger given to systemd-run identifies the
    instant to the second: two valid instants of four-digit years get the
    same
    [--on-calendar] text exactly when they agree on every field but the
    microsecond. *)
Theorem on_calendar_same_second (a b : datetime) :
  valid_datetime a -> valid_datetime b ->
  (1000 <= year a)%Z -> (1000 <= year b)%Z ->
  (strftime_calendar a = strftime_calendar b <->
   year a = year b /\ month a = month b /\ day a = day b /\
   hour a = hour b /\ minute a = minute b /\ second a = second b).
Proof.
  intros Ha Hb Hya Hyb.
  destruct (valid_datetime_bounds a Ha) as (Hy & Hmo & Hd & Hh & Hmi & Hs & _).
  destruct (valid_datetime_bounds b Hb) as (Hy' & Hmo' & Hd' & Hh' & Hmi' & Hs' & _).
  unfold strftime_calendar.
  rewrite !strftime_Y_four_digits by (simpl in Hy, Hy'; lia). split.
  - intros E.
    apply (field_inj 3) in E; [|assumption..]. destruct E as [E1 E].
    apply app_inv_head in E.
    apply (field_inj 1) in E; [|assumption..]. destruct E as [E2 E].
    apply app_inv_head in E.
    apply (field_inj 1) in E; [|assumption..]. destruct E as [E3 E].
    apply app_inv_head in E.
    apply (field_inj 1) in E; [|assumption..]. destruct E as [E4 E].
    apply app_inv_head in E.
    apply (field_inj 1) in E; [|assumption..]. destruct E as [E5 E].
    apply app_inv_head in E.
    apply (format_0d_inj 2) in E; [|lia..].
    repeat split; assumption.
  - intros (-> & -> & -> & -> & -> & ->). reflexivity.
Qed.

Lemma on_calendar_same_second_witness :
  strftime_calendar (mk_datetime 2026 1 16 15 0 0 0)
  = strftime_calendar (mk_datetime 2026 1 16 15 0 0 999999) <->
  2026%Z = 2026%Z /\ 1%Z = 1%Z /\ 16%Z = 16%Z /\ 15%Z = 15%Z /\ 0%Z = 0%Z
  /\ 0%Z = 0%Z.
Proof.
  apply (on_calendar_same_second (mk_datetime 2026 1 16 15 0 0 0)
           (mk_datetime 2026 1 16 15 0 0 999999));
    try (unfold valid_datetime; vm_compute; repeat split; discriminate);
    vm_compute; discriminate.
Defined.

(** ** The backends at work *)

Lemma run_effects (w : world) (cmd : list str) :
  snd (run w cmd) = [Spawn cmd None].
Proof. reflexivity. Qed.



Lemma at_schedule_at_fst (w : world) (when : datetime) (title message : str) :
  fst (at_schedule_at w when title message) =
  match w_spawn w [lit "at"; lit "-t"; at_timestamp when]
          (Some (at_input title message)) with
  | NotFound text => Raised (FileNotFoundError text)
  | Exited code stderr =>
      if (code =? 0)%Z then Returned tt
      else lift (die (msg_at_failed
                        match stderr with
                        | [] => lit "unknown error"
                        | _ => strip stderr
                        end))
  end.
Proof. reflexivity. Qed.

Lemma systemd_schedule_at_fst (w : world) (when : datetime)
    (title message : str) :
  fst (systemd_schedule_at w when title message) =
  match w_spawn w (systemd_argv (unit_name (lit "remindme") when)
                     (lit "--on-calendar") (strftime_calendar when)
                     title message) None with
  | NotFound text => die [Lit text]
  | Exited code _ =>
      if (code =? 0)%Z then Ok tt else die (msg_command_failed code)
  end.
Proof. reflexivity. Qed.

(** X15.  For a title and a message of code points up to U+00FF, whose
    line always encodes as UTF-8 (a lone surrogate would make [encode]
    raise before [at] is started), the at backend submits one job,
    [at -t] with the minute stamp and the quoted line on standard input.
    A zero return code is success; a non-zero one dies with "at failed:"
    followed by the trimmed diagnostic, or by "unknown error" when there
    is none.  A missing [at] executable is not caught:
    [FileNotFoundError] leaves the call, where the systemd backend dies
    with the error text. *)
Theorem at_schedule_at_outcomes (w : world) (when : datetime)
    (title message : str) :
  snd (at_schedule_at w when title message) =
    [Spawn [lit "at"; lit "-t"; at_timestamp when] (Some (at_input title message))] /\
  (forall stderr,
     w_spawn w [lit "at"; lit "-t"; at_timestamp when]
       (Some (at_input title message)) = Exited 0 stderr ->
     fst (at_schedule_at w when title message) = Returned tt) /\
  (forall code,
     code <> 0%Z ->
     w_spawn w [lit "at"; lit "-t"; at_timestamp when]
       (Some (at_input title message)) = Exited code [] ->
     fst (at_schedule_at w when title message) =
     Raised (Builtin (SystemExit
                        [Lit "error: "; Lit (lit "at failed:" ++ [newline]);
                         Lit "unknown error"]))) /\
  (forall code stderr,
     code <> 0%Z -> stderr <> [] ->
     w_spawn w [lit "at"; lit "-t"; at_timestamp when]
       (Some (at_input title message)) = Exited code stderr ->
     fst (at_schedule_at w when title message) =
     Raised (Builtin (SystemExit
                        [Lit "error: "; Lit (lit "at failed:" ++ [newline]);
                         Lit (strip stderr)]))) /\
  (forall text,
     (forall argv input, w_spawn w argv input = NotFound text) ->
     fst (at_schedule_at w when title message) = Raised (FileNotFoundError text) /\
     fst (systemd_schedule_at w when title message) =
     Raise (SystemExit [Lit "error: "; Lit text])).
Proof.
  split; [reflexivity|].
  rewrite at_schedule_at_fst, systemd_schedule_at_fst.
  split; [intros stderr E; rewrite E; reflexivity|].
  split.
  { intros code Hc E. rewrite E.
    destruct (Z.eqb_spec code 0); [contradiction | reflexivity]. }
  split.
  { intros code stderr Hc Hs E. rewrite E.
    destruct (Z.eqb_spec code 0); [contradiction|].
    destruct stderr; [contradiction | reflexivity]. }
  intros text E. split.
  - rewrite E. reflexivity.
  - rewrite E. reflexivity.
Qed.

Lemma at_schedule_at_outcomes_witness :
  fst (at_schedule_at
         (mk_world (fun _ => true) (fun _ _ => Exited 1 (lit " no atd "))
            (mk_datetime 2026 1 15 10 0 0 0))
         (mk_datetime 2026 1 16 15 0 0 0) (lit "Reminder") (lit "tea")) =
  Raised (Builtin (SystemExit
                     [Lit "error: "; Lit (lit "at failed:" ++ [newline]);
                      Lit (strip (lit " no atd "))])) /\
  fst (at_schedule_at
         (mk_world (fun _ => true) (fun _ _ => NotFound (lit "No such file: at"))
            (mk_datetime 2026 1 15 10 0 0 0))
         (mk_datetime 2026 1 16 15 0 0 0) (lit "Reminder") (lit "tea")) =
  Raised (FileNotFoundError (lit "No such file: at")).
Proof.
  split.
  - apply (proj1 (proj2 (proj2 (proj2
             (at_schedule_at_outcomes
                (mk_world (fun _ => true) (fun _ _ => Exited 1 (lit " no atd "))
                   (mk_datetime 2026 1 15 10 0 0 0))
                (mk_datetime 2026 1 16 15 0 0 0) (lit "Reminder") (lit "tea")))))
             1%Z (lit " no atd ")); [discriminate | discriminate | reflexivity].
  - apply (proj2 (proj2 (proj2 (proj2
             (at_schedule_at_outcomes
                (mk_world (fun _ => true)
                   (fun _ _ => NotFound (lit "No such file: at"))
                   (mk_datetime 2026 1 15 10 0 0 0))
                (mk_datetime 2026 1 16 15 0 0 0) (lit "Reminder") (lit "tea")))))
             (lit "No such file: at")).
    reflexivity.
Defined.

(** X16.  For a delay of [n] seconds that ends within the current minute,
    [now + duration] moves the second only, and the at backend submits
    the job with the time stamp of the current minute. *)
Theorem at_schedule_in_within_minute (w : world) (n : Z) (title message : str) :
  valid_datetime (w_now w) -> (0 <= n)%Z -> (second (w_now w) + n < 60)%Z ->
  datetime_add (w_now w) (span_delta n) =
  Ok (mk_datetime (year (w_now w)) (month (w_now w)) (day (w_now w))
        (hour (w_now w)) (minute (w_now w)) (second (w_now w) + n)
        (microsecond (w_now w))) /\
  snd (at_schedule_in w (span_delta n) title message) =
  [Spawn [lit "at"; lit "-t"; at_timestamp (w_now w)]
     (Some (at_input title message))].
Proof.
  set (now := w_now w).
  assert (Hadd : valid_datetime now -> (0 <= n)%Z -> (second now + n < 60)%Z ->
            datetime_add now (span_delta n) =
            Ok (mk_datetime (year now) (month now) (day now) (hour now)
                  (minute now) (second now + n) (microsecond now))).
  { clearbody now.
    intros (_ & _ & _ & Hh & Hmi & Hs & Hus) Hn Hlt.
    unfold datetime_add, span_delta.
    cbn [days seconds microseconds].
    assert (Hn0 : (n / 86400 = 0)%Z) by (apply Z.div_small; lia).
    assert (Hn1 : (n mod 86400 = n)%Z) by (apply Z.mod_small; lia).
    rewrite Hn0, Hn1, Z.add_0_r.
    assert (Hus0 : (microsecond now / 1000000 = 0)%Z) by (apply Z.div_small; lia).
    assert (Hus1 : (microsecond now mod 1000000 = microsecond now)%Z)
      by (apply Z.mod_small; lia).
    rewrite Hus0, Hus1, Z.add_0_r. cbv zeta.
    set (s := ((hour now * 60 + minute now) * 60 + second now + n)%Z).
    assert (Hs0 : (s / 86400 = 0)%Z) by (apply Z.div_small; unfold s; lia).
    assert (Hs1 : (s mod 86400 = s)%Z) by (apply Z.mod_small; unfold s; lia).
    rewrite Hs0, Hs1. cbn [Z.add Z.leb Z.compare Z.to_nat add_days].
    assert (Hh' : (s / 3600 = hour now)%Z).
    { symmetry. apply (Z.div_unique s 3600 (hour now) (minute now * 60 + second now + n));
        [left; lia | unfold s; lia]. }
    assert (Hr : (s mod 3600 = minute now * 60 + second now + n)%Z).
    { symmetry. apply (Z.mod_unique s 3600 (hour now));
        [left; lia | unfold s; lia]. }
    assert (Hmi' : (s mod 3600 / 60 = minute now)%Z).
    { rewrite Hr. symmetry.
      apply (Z.div_unique _ 60 (minute now) (second now + n)); [left; lia | lia]. }
    assert (Hs' : (s mod 60 = second now + n)%Z).
    { symmetry. apply (Z.mod_unique s 60 (hour now * 60 + minute now));
        [left; lia | unfold s; lia]. }
    rewrite Hh', Hmi', Hs'. reflexivity. }
  intros Hv Hn Hlt. split; [exact (Hadd Hv Hn Hlt)|].
  unfold at_schedule_in. fold now. rewrite (Hadd Hv Hn Hlt). reflexivity.
Qed.

Lemma at_schedule_in_within_minute_witness :
  datetime_add (mk_datetime 2026 1 15 10 0 10 0) (span_delta 30) =
  Ok (mk_datetime 2026 1 15 10 0 40 0) /\
  snd (at_schedule_in
         (mk_world (fun _ => true) (fun _ _ => Exited 0 [])
            (mk_datetime 2026 1 15 10 0 10 0))
         (span_delta 30) (lit "Reminder") (lit "tea")) =
  [Spawn [lit "at"; lit "-t"; at_timestamp (mk_datetime 2026 1 15 10 0 10 0)]
     (Some (at_input (lit "Reminder") (lit "tea")))].
Proof.
  apply (at_schedule_in_within_minute
           (mk_world (fun _ => true) (fun _ _ => Exited 0 [])
              (mk_datetime 2026 1 15 10 0 10 0)) 30%Z);
    [unfold valid_datetime; vm_compute; repeat split; discriminate
    | lia | vm_compute; reflexivity].
Defined.

(** ** [main] *)

Lemma lookups_no_spawn (title message : str) (tr : trace) :
  Forall (intended_spawn title message) (lookups tr) /\
  filter is_spawn (lookups tr) = [].
Proof.
  induction tr as [|[cmd | cls c] tr [IH1 IH2]]; [split; [constructor | reflexivity]| |].
  - split; [constructor; [exact I | exact IH1] | exact IH2].
  - split; [exact IH1 | exact IH2].
Qed.

Lemma run_intended (w : world) (unit trigger spec title message : str) :
  Forall (intended_spawn title message)
    (snd (run w (systemd_argv unit trigger spec title message))) /\
  (length (filter is_spawn
             (snd (run w (systemd_argv unit trigger spec title message)))) <= 1)%nat.
Proof.
  rewrite run_effects. split; [|simpl; lia].
  constructor; [|constructor]. left. exists unit, trigger, spec.
  split; reflexivity.
Qed.

Lemma concrete_schedule_intended (w : world) (cls : backend_cls) (c : call) :
  Forall (intended_spawn (call_title c) (call_message c))
    (snd (concrete_schedule w cls c)) /\
  (length (filter is_spawn (snd (concrete_schedule w cls c))) <= 1)%nat.
Proof.
  assert (Hnil : forall t m, Forall (intended_spawn t m) [] /\
                             (length (filter is_spawn []) <= 1)%nat)
    by (intros; split; [constructor | simpl; lia]).
  assert (Hat : forall when t m,
            Forall (intended_spawn t m) (snd (at_schedule_at w when t m)) /\
            (length (filter is_spawn (snd (at_schedule_at w when t m))) <= 1)%nat).
  { intros when t m. split; [|simpl; lia].
    constructor; [|constructor]. right. exists (at_timestamp when).
    split; reflexivity. }
  destruct cls, c as [d title message | when title message];
    cbn [concrete_schedule call_title call_message lift_fst snd];
    try apply Hnil.
  - unfold systemd_schedule_in.
    destruct (format_systemd_duration d); [|apply Hnil].
    destruct (datetime_add (w_now w) d); [|apply Hnil].
    apply run_intended.
  - apply run_intended.
  - unfold at_schedule_in.
    destruct (datetime_add (w_now w) d); [apply Hat | apply Hnil].
  - apply Hat.
Qed.

Lemma backend_schedule_intended (w : world) (b : backend) (c : call) :
  Forall (intended_spawn (call_title c) (call_message c))
    (snd (backend_schedule w b c)) /\
  (length (filter is_spawn (snd (backend_schedule w b c))) <= 1)%nat.
Proof.
  pose proof (concrete_schedule_intended w) as Hc.
  destruct b as [| | self]; cbn [backend_schedule].
  - specialize (Hc SystemdBackend c).
    destruct (concrete_schedule w SystemdBackend c) as [r fx]. exact Hc.
  - specialize (Hc AtBackend c).
    destruct (concrete_schedule w AtBackend c) as [r fx]. exact Hc.
  - destruct (returned (delegate (w_which w) self)) as [cls | e].
    + specialize (Hc cls c).
      destruct (concrete_schedule w cls c) as [r fx]. cbn [snd] in *.
      destruct (lookups_no_spawn (call_title c) (call_message c)
                  (events (delegate (w_which w) self))) as [L1 L2].
      rewrite filter_app, L2. split; [|exact (proj2 Hc)].
      apply Forall_app. split; [exact L1 | exact (proj1 Hc)].
    + cbn [snd].
      destruct (lookups_no_spawn (call_title c) (call_message c)
                  (events (delegate (w_which w) self))) as [L1 L2].
      rewrite L2. split; [exact L1 | simpl; lia].
Qed.

Lemma call_of_method_text (m : Method) :
  call_title (call_of_method m) = method_title m /\
  call_message (call_of_method m) = method_message m.
Proof. destruct m; split; reflexivity. Qed.

(** X17.  Whatever the options and the outside world, [main] starts at
    most one process, and only one of two: systemd-run with the title
    and the message of the options as its last two arguments after
    [-- notify-send], or [at -t ts] with the quoted notify-send line of
    that title and message on standard input.  Without notify-send on
    the search path it dies with the installation advice right after
    setting the logging level: no backend is asked, nothing is started. *)
Theorem main_spawns_only_the_reminder (w : world) (opt : Options) :
  Forall (intended_spawn (method_title (opt_method opt))
            (method_message (opt_method opt)))
    (snd (main w opt)) /\
  (length (filter is_spawn (snd (main w opt))) <= 1)%nat /\
  (w_which w (lit "notify-send") = false ->
   main w opt =
   (Raised (Builtin (SystemExit (Lit "error: " :: msg_notify_send_missing))),
    [LogLevel (verbosity_to_log_level (opt_verbosity opt));
     Lookup (lit "notify-send")])).
Proof.
  destruct (call_of_method_text (opt_method opt)) as [Ht Hm].
  rewrite <- Ht, <- Hm.
  pose proof (backend_schedule_intended w (opt_backend opt)
                (call_of_method (opt_method opt))) as [H1 H2].
  unfold main, check_notify_send. cbv zeta.
  destruct (w_which w (lit "notify-send")).
  - destruct (backend_schedule w (opt_backend opt)
                (call_of_method (opt_method opt))) as [[b r] fx].
    cbn [snd] in *. split; [|split; [exact H2 | discriminate]].
    constructor; [exact I|]. constructor; [exact I | exact H1].
  - cbn [snd]. split; [|split; [simpl; lia | reflexivity]].
    constructor; [exact I|]. constructor; [exact I | constructor].
Qed.

Lemma main_spawns_only_the_reminder_witness :
  main (mk_world (fun cmd => str_eqb cmd (lit "systemd-run"))
          (fun _ _ => Exited 0 []) (mk_datetime 2026 1 15 10 0 0 0))
    (mk_options SystemdInstance
       (MethodIn (mk_timedelta 0 1800 0) (lit "tea") (lit "Reminder")) (-1)) =
  (Raised (Builtin (SystemExit (Lit "error: " :: msg_notify_send_missing))),
   [LogLevel WARNING; Lookup (lit "notify-send")]).
Proof.
  apply (proj2 (proj2 (main_spawns_only_the_reminder
           (mk_world (fun cmd => str_eqb cmd (lit "systemd-run"))
              (fun _ _ => Exited 0 []) (mk_datetime 2026 1 15 10 0 0 0))
           (mk_options SystemdInstance
              (MethodIn (mk_timedelta 0 1800 0) (lit "tea") (lit "Reminder"))
              (-1))))).
  reflexivity.
Defined.


